(** * The Mycelia / JAI client SDK: the session lifecycle, the status polling
      loop and the HTTP binding layer, embedded from the Python sources.

    Three generations of the client live side by side in the repository and
    are embedded in a module each:
    - [Core]  : [src/mycelia_core.py], class [jAI] (requests level);
    - [Task]  : [jai/task/trainer.py] and [jai/task/base.py], class [Trainer];
    - [Setup] : [jai/setup/trainer.py], class [Trainer].

    Python values are modelled as follows: [int] is [Z]; [str] is [string],
    read as a sequence of code points below 256; a JSON document is [Json];
    a dictionary keyed by collection name is a [gmap string _]; an exception
    is a constructor of [exn].  Effects (remote calls, sleeping, printing,
    progress bars) are threaded through a state-and-exception monad whose
    state records everything the program did, in order. *)

From Stdlib Require Import ZArith List String Ascii Bool Lia.
From stdpp Require Import base gmap strings pretty.
Import ListNotations.

Local Open Scope string_scope.
Local Open Scope list_scope.
Local Open Scope Z_scope.

(* ===================================================================== *)
(** ** Python strings                                                     *)
(* ===================================================================== *)

Module Py.

(** [s.startswith(p)] *)
Fixpoint startswith (p s : string) : bool :=
  match p, s with
  | EmptyString, _ => true
  | String _ _, EmptyString => false
  | String a p', String b s' => if Ascii.eqb a b then startswith p' s' else false
  end.

(** [p in s] for strings *)
Fixpoint contains (p s : string) : bool :=
  startswith p s ||
  match s with
  | EmptyString => false
  | String _ s' => contains p s'
  end.

(** [fnmatch.fnmatch(name, pat)] on a POSIX system (no case folding), for
    patterns built from literal characters, [*] and [?]. *)
Fixpoint fnmatch_from (pat name : string) : bool :=
  match pat with
  | EmptyString => match name with EmptyString => true | _ => false end
  | String c pat' =>
      if Ascii.eqb c "*" then
        (fix star (n : string) : bool :=
           fnmatch_from pat' n ||
           match n with
           | EmptyString => false
           | String _ n' => star n'
           end) name
      else
        match name with
        | EmptyString => false
        | String d name' =>
            if Ascii.eqb c "?" then fnmatch_from pat' name'
            else if Ascii.eqb c d then fnmatch_from pat' name' else false
        end
  end.

Definition fnmatch (name pat : string) : bool := fnmatch_from pat name.

Definition rev_string (acc : list ascii) : string :=
  string_of_list_ascii (rev acc).

(** [s.split(sep)] for a non-empty separator: cut at every occurrence of
    [sep], scanning from the left, occurrences not overlapping.  [skip]
    counts the characters of a matched separator still to be dropped and
    [acc] holds the current piece, reversed. *)
Fixpoint split_from (sep : string) (skip : nat) (acc : list ascii) (s : string)
  : list string :=
  match s with
  | EmptyString => [rev_string acc]
  | String c s' =>
      match skip with
      | S k => split_from sep k acc s'
      | O =>
          if startswith sep s
          then rev_string acc :: split_from sep (String.length sep - 1) [] s'
          else split_from sep 0 (c :: acc) s'
      end
  end.

Definition split (s sep : string) : list string := split_from sep 0 [] s.

(** [c.isspace()] for a code point below 256. *)
Definition isspace (c : ascii) : bool :=
  let n := nat_of_ascii c in
  ((9 <=? n) && (n <=? 13) || (28 <=? n) && (n <=? 32) || (n =? 133) || (n =? 160))%nat.

Fixpoint lstrip_chars (cs : list ascii) : list ascii :=
  match cs with
  | c :: cs' => if isspace c then lstrip_chars cs' else cs
  | [] => []
  end.

(** [s.strip()] *)
Definition strip (s : string) : string :=
  string_of_list_ascii
    (rev (lstrip_chars (rev (lstrip_chars (list_ascii_of_string s))))).

Definition digit_of (c : ascii) : option Z :=
  let n := nat_of_ascii c in
  if ((48 <=? n) && (n <=? 57))%nat then Some (Z.of_nat n - 48) else None.

(** The digit part of an integer literal: decimal digits, single
    underscores allowed between two digits.  [after_digit] tells whether
    the previous character was a digit. *)
Fixpoint int_digits (acc : Z) (after_digit : bool) (cs : list ascii) : option Z :=
  match cs with
  | [] => if after_digit then Some acc else None
  | c :: cs' =>
      match digit_of c with
      | Some d => int_digits (10 * acc + d) true cs'
      | None =>
          if Ascii.eqb c "_" && after_digit then int_digits acc false cs'
          else None
      end
  end.

(** [int(s)] for a string, base ten; [None] stands for [ValueError]. *)
Definition int (s : string) : option Z :=
  match list_ascii_of_string (strip s) with
  | c :: cs =>
      if Ascii.eqb c "-" then Z.opp <$> int_digits 0 false cs
      else if Ascii.eqb c "+" then int_digits 0 false cs
      else int_digits 0 false (c :: cs)
  | [] => None
  end.

(** [s.endswith(p)] *)
Definition endswith (p s : string) : bool :=
  startswith (rev_string (list_ascii_of_string p)) (rev_string (list_ascii_of_string s)).

(** [s[:-1]] *)
Definition but_last (s : string) : string :=
  string_of_list_ascii (removelast (list_ascii_of_string s)).

(** [s[:n]] for [n >= 0] *)
Definition take (n : nat) (s : string) : string :=
  string_of_list_ascii (firstn n (list_ascii_of_string s)).

(** [len(s)] *)
Definition len (s : string) : Z := Z.of_nat (String.length s).

(** [str(n)] for an integer *)
Definition str (n : Z) : string := pretty n.

Definition hex_digit (n : nat) : ascii :=
  nth n (list_ascii_of_string "0123456789abcdef") "0"%char.

(** [binascii.hexlify]: two lower-case hexadecimal digits per byte. *)
Definition hexlify (bytes : list ascii) : string :=
  string_of_list_ascii
    (flat_map (fun b => let n := nat_of_ascii b in
                        [hex_digit (n / 16); hex_digit (n mod 16)]) bytes).

End Py.

(* ===================================================================== *)
(** ** Values, exceptions and the effect monad                            *)
(* ===================================================================== *)

(** A decoded JSON document (numbers are integers throughout the client). *)
#[warnings="-register-all"]
Inductive Json : Type :=
| JNull
| JBool (b : bool)
| JNum (n : Z)
| JStr (s : string)
| JList (items : list Json)
| JDict (items : list (string * Json)).

(** The exceptions the client raises or lets through. *)
Inductive exn : Type :=
| BaseException (arg : Json)
| KeyboardInterrupt (arg : option string)
| KeyError (key : string)
| ValueError (msg : string)
| IndexError
| TypeError
| AttributeError (attr : string)
| UnboundLocalError (var : string)
| ConnectionError.

(** How a call ends.  [Blocked]: the call is still waiting for the outside
    world when the scripted future runs out.  [OutOfFuel]: the loop bound
    of the model was reached (never the case with the bounds that
    [wait_setup] of [jai/task/trainer.py] and [generate_name] choose, see
    [wait_setup_has_fuel] and [generate_name_has_fuel]). *)
Inductive outcome (A : Type) : Type :=
| Ret (a : A)
| Raise (e : exn)
| Blocked
| OutOfFuel.
Arguments Ret {A} a.
Arguments Raise {A} e.
Arguments Blocked {A}.
Arguments OutOfFuel {A}.

(** What the outside world hands to a blocking call: a value, or an
    exception raised while it blocks (a network failure, Ctrl-C). *)
Inductive incoming (A : Type) : Type :=
| Answer (a : A)
| Throw (e : exn).
Arguments Answer {A} a.
Arguments Throw {A} e.

Section Monad.
Context {St : Type}.

Definition M (A : Type) : Type := St -> outcome A * St.

Definition ret {A} (a : A) : M A := fun s => (Ret a, s).
Definition raise {A} (e : exn) : M A := fun s => (Raise e, s).
Definition lift {A} (o : outcome A) : M A := fun s => (o, s).

Definition bind {A B} (m : M A) (k : A -> M B) : M B :=
  fun s =>
    match m s with
    | (Ret a, s') => k a s'
    | (Raise e, s') => (Raise e, s')
    | (Blocked, s') => (Blocked, s')
    | (OutOfFuel, s') => (OutOfFuel, s')
    end.

(** [try: m except <the exceptions on which h is defined>: h e] *)
Definition try_except {A} (m : M A) (h : exn -> option (M A)) : M A :=
  fun s =>
    match m s with
    | (Raise e, s') =>
        match h e with
        | Some handler => handler s'
        | None => (Raise e, s')
        end
    | r => r
    end.
End Monad.
Arguments M St A : clear implicits.

Declare Scope py_scope.
Delimit Scope py_scope with py.
Notation "'let*' x ':=' m 'in' k" := (bind m (fun x => k))
  (at level 10, x name, m at level 100, k at level 200) : py_scope.
Notation "m '>>' k" := (bind m (fun _ => k))
  (at level 100, k at level 200, right associativity) : py_scope.
Local Open Scope py_scope.

(* ===================================================================== *)
(** ** [src/mycelia_core.py]: class [jAI]                                 *)
(* ===================================================================== *)

Module Core.

Inductive Verb := GET | POST | PUT | PATCH | DELETE.

Record Request := {
  verb : Verb;
  url : string;
  headers : string * string;
  data : option Json
}.

(** A [requests.Response].  The service speaks JSON on every endpoint and
    for every status code, so [response.json()] is the field [body]. *)
Record Response := { status_code : Z; body : Json }.

Inductive Effect :=
| Sent (r : Request)
| Printed (j : Json)
| Slept (seconds : Z).

(** The world of the core client: [wire] scripts what the next requests
    will receive, [entropy] the bytes [secrets] will draw, [done] logs
    what the client did. *)
Record Net := {
  wire : list (incoming Response);
  entropy : list ascii;
  done : list Effect
}.

Definition emit (e : Effect) : M Net unit :=
  fun w => (Ret tt, {| wire := wire w; entropy := entropy w; done := done w ++ [e] |}).

(** One HTTP round trip. *)
Definition request (r : Request) : M Net Response :=
  fun w =>
    let sent := done w ++ [Sent r] in
    match wire w with
    | [] => (Blocked, {| wire := []; entropy := entropy w; done := sent |})
    | Answer a :: rest => (Ret a, {| wire := rest; entropy := entropy w; done := sent |})
    | Throw e :: rest => (Raise e, {| wire := rest; entropy := entropy w; done := sent |})
    end.

(** [print(x)] *)
Definition print (j : Json) : M Net unit := emit (Printed j).

(** [time.sleep(seconds)] *)
Definition sleep (seconds : Z) : M Net unit :=
  if seconds <? 0 then raise (ValueError "sleep length must be non-negative")
  else emit (Slept seconds).

(** [secrets.token_hex(nbytes)] *)
Definition token_hex (nbytes : nat) : M Net string :=
  fun w =>
    if (length (entropy w) <? nbytes)%nat then (Blocked, w)
    else (Ret (Py.hexlify (firstn nbytes (entropy w))),
          {| wire := wire w; entropy := skipn nbytes (entropy w); done := done w |}).

(** What a method of [jAI] hands back: the decoded body, the raw response
    (error path), or a data frame built from the body ([info]). *)
Inductive Reply :=
| Parsed (j : Json)
| Raw (r : Response)
| Frame (j : Json).

Record jAI := { base_api_url : string; header : string * string }.

Definition __init__ (auth_key : string) (url : option string) : jAI :=
  match url with
  | None => {| base_api_url := "https://mycelia.azure-api.net"; header := ("Auth", auth_key) |}
  | Some url =>
      let url := if Py.endswith "/" url then Py.but_last url else url in
      {| base_api_url := url; header := ("company-key", auth_key) |}
  end.

Section Methods.
Variable self : jAI.

Definition requests_get (u : string) : M Net Response :=
  request {| verb := GET; url := u; headers := header self; data := None |}.
Definition requests_post (u : string) (d : option Json) : M Net Response :=
  request {| verb := POST; url := u; headers := header self; data := d |}.
Definition requests_put (u : string) (d : option Json) : M Net Response :=
  request {| verb := PUT; url := u; headers := header self; data := d |}.
Definition requests_patch (u : string) : M Net Response :=
  request {| verb := PATCH; url := u; headers := header self; data := None |}.
Definition requests_delete (u : string) : M Net Response :=
  request {| verb := DELETE; url := u; headers := header self; data := None |}.

Definition assert_status_code (response : Response) : M Net Reply :=
  print (body response) >>
  ret (Raw response).

Definition names : M Net Reply :=
  let* response := requests_get (base_api_url self +:+ "/info?mode=names") in
  if status_code response =? 200 then ret (Parsed (body response))
  else assert_status_code response.

Definition info : M Net Reply :=
  let* response := requests_get (base_api_url self +:+ "/info?mode=complete") in
  if status_code response =? 200 then ret (Frame (body response))
  else assert_status_code response.

Definition status : M Net Reply :=
  let* response := requests_get (base_api_url self +:+ "/status") in
  if status_code response =? 200 then ret (Parsed (body response))
  else assert_status_code response.

(** The [id_item] argument of [_similar_id]: an [int] or a [list]. *)
Inductive IdItem := OneId (i : Z) | ManyIds (l : list Z).

(** ['&'.join(['id=' + str(i) for i in set(id_item)])]; the iteration
    order of the set is taken to be the order of first occurrence. *)
Fixpoint dedup (l : list Z) : list Z :=
  match l with
  | [] => []
  | i :: l' => i :: filter (fun j => negb (i =? j)) (dedup l')
  end.

Definition id_query (l : list Z) : string :=
  String.concat "&" (map (fun i => "id=" +:+ Py.str i) (dedup l)).

Definition _similar_id (name : string) (id_item : IdItem) (top_k : Z) (method : string)
  : M Net Reply :=
  let* response :=
    if String.eqb method "GET" then
      let u :=
        match id_item with
        | ManyIds l =>
            base_api_url self +:+ "/similar/id/" +:+ name +:+ "?" +:+ id_query l
              +:+ "&top_k=" +:+ Py.str top_k
        | OneId i =>
            base_api_url self +:+ "/similar/id/" +:+ name +:+ "?id=" +:+ Py.str i
              +:+ "&top_k=" +:+ Py.str top_k
        end in
      requests_get u
    else if String.eqb method "PUT" then
      let id_item := match id_item with ManyIds l => l | OneId i => [i] end in
      requests_put (base_api_url self +:+ "/similar/id/" +:+ name +:+ "?top_k=" +:+ Py.str top_k)
                   (Some (JList (map JNum id_item)))
    else raise (ValueError "method must be GET or PUT.") in
  if status_code response =? 200 then ret (Parsed (body response))
  else assert_status_code response.

Definition _similar_json (name : string) (data_json : Json) (top_k : Z) : M Net Reply :=
  let u := base_api_url self +:+ "/similar/data/" +:+ name +:+ "?top_k=" +:+ Py.str top_k in
  let* response := requests_put u (Some data_json) in
  if status_code response =? 200 then ret (Parsed (body response))
  else assert_status_code response.

Definition ids (name mode : string) : M Net Reply :=
  let* response := requests_get (base_api_url self +:+ "/id/" +:+ name +:+ "?mode=" +:+ mode) in
  if status_code response =? 200 then ret (Parsed (body response))
  else assert_status_code response.

Definition is_valid (name : string) : M Net Reply :=
  let* response := requests_get (base_api_url self +:+ "/validation/" +:+ name) in
  if status_code response =? 200 then ret (Parsed (body response))
  else assert_status_code response.

Definition _temp_ids (name mode : string) : M Net Reply :=
  let* response := requests_get (base_api_url self +:+ "/id/" +:+ name +:+ "?mode=" +:+ mode) in
  if status_code response =? 200 then ret (Parsed (body response))
  else assert_status_code response.

Definition _insert_json (name : string) (df_json : Json) : M Net Reply :=
  let* response := requests_post (base_api_url self +:+ "/data/" +:+ name) (Some df_json) in
  if status_code response =? 200 then ret (Parsed (body response))
  else assert_status_code response.

(** [kwargs[key] = value] *)
Fixpoint dict_set (key : string) (value : Json) (kwargs : list (string * Json))
  : list (string * Json) :=
  match kwargs with
  | [] => [(key, value)]
  | (k, v) :: rest =>
      if String.eqb k key then (k, value) :: rest else (k, v) :: dict_set key value rest
  end.

Definition _setup_database (name : string) (db_type : Json) (kwargs : list (string * Json))
  : M Net Reply :=
  let kwargs := dict_set "db_type" db_type kwargs in
  let* response := requests_post (base_api_url self +:+ "/setup/" +:+ name) (Some (JDict kwargs)) in
  if status_code response =? 201 then ret (Parsed (body response))
  else assert_status_code response.

Definition _append (name : string) : M Net Reply :=
  let* response := requests_patch (base_api_url self +:+ "/data/" +:+ name) in
  if status_code response =? 202 then ret (Parsed (body response))
  else assert_status_code response.

Definition delete_raw_data (name : string) : M Net Reply :=
  let* response := requests_delete (base_api_url self +:+ "/data/" +:+ name) in
  if status_code response =? 200 then ret (Parsed (body response))
  else assert_status_code response.

Definition delete_database (name : string) : M Net Reply :=
  let* response := requests_delete (base_api_url self +:+ "/database/" +:+ name) in
  if status_code response =? 200 then ret (Parsed (body response))
  else assert_status_code response.

(** [len(x)] for a decoded document. *)
Definition py_len (x : Json) : outcome Z :=
  match x with
  | JStr s => Ret (Py.len s)
  | JList l => Ret (Z.of_nat (length l))
  | JDict d => Ret (Z.of_nat (length d))
  | _ => Raise TypeError
  end.

Fixpoint dict_get (key : string) (d : list (string * Json)) : option Json :=
  match d with
  | [] => None
  | (k, v) :: rest => if String.eqb k key then Some v else dict_get key rest
  end.

(** [x[key]] for a string key. *)
Definition getitem (x : Json) (key : string) : outcome Json :=
  match x with
  | JDict d =>
      match dict_get key d with
      | Some v => Ret v
      | None => Raise (KeyError key)
      end
  | _ => Raise TypeError
  end.

(** [x == s] for a string literal [s]. *)
Definition eq_str (x : Json) (s : string) : bool :=
  match x with
  | JStr t => String.eqb t s
  | _ => false
  end.

(** The body of the [while] loop of [wait_setup], entered with the
    status record of the collection. *)
Fixpoint wait_setup_loop (fuel : nat) (name : string) (frequency_seconds : Z)
  (status_ : Json) : M Net unit :=
  match fuel with
  | O => lift OutOfFuel
  | S fuel' =>
      let* st := lift (getitem status_ "Status") in
      if negb (eq_str st "Task ended successfully.") then
        let* st := lift (getitem status_ "Status") in
        if eq_str st "Something went wrong." then
          let* description := lift (getitem status_ "Description") in
          raise (BaseException description)
        else
          sleep frequency_seconds >>
          let* status_ := status in
          match status_ with
          | Parsed status_ =>
              let* n := lift (py_len status_) in
              if 0 <? n then
                let* status_ := lift (getitem status_ name) in
                wait_setup_loop fuel' name frequency_seconds status_
              else ret tt
          | _ => raise TypeError
          end
      else ret tt
  end.

Definition wait_setup (name : string) (frequency_seconds : Z) : M Net unit :=
  let* status_ := status in
  match status_ with
  | Parsed status_ =>
      let* n := lift (py_len status_) in
      if 0 <? n then
        let* status_ := lift (getitem status_ name) in
        fun w => wait_setup_loop (S (length (wire w))) name frequency_seconds status_ w
      else ret tt
  | _ => raise TypeError
  end.

(** [name in names] *)
Definition name_in (name : string) (names_ : Reply) : outcome bool :=
  match names_ with
  | Parsed (JList l) =>
      Ret (existsb (fun j => eq_str j name) l)
  | Parsed (JDict d) =>
      Ret (existsb (fun kv => String.eqb (fst kv) name) d)
  | Parsed (JStr s) => Ret (Py.contains name s)
  | Parsed _ => Raise TypeError
  | Raw _ => Ret false
  | Frame _ => Ret false
  end.

(** [str(prefix) + secrets.token_hex(length)[:length].lower() + str(suffix)] *)
Definition draw_name (length : nat) (prefix suffix : string) : M Net string :=
  let* code := token_hex length in
  ret (prefix +:+ Py.take length code +:+ suffix).

Fixpoint redraw (fuel : nat) (length : nat) (prefix suffix : string)
  (names_ : Reply) (name : string) : M Net string :=
  match fuel with
  | O => lift OutOfFuel
  | S fuel' =>
      let* taken := lift (name_in name names_) in
      if taken then
        let* name := draw_name length prefix suffix in
        redraw fuel' length prefix suffix names_ name
      else ret name
  end.

Definition generate_name (length : Z) (prefix suffix : string) : M Net string :=
  let len_prefix := Py.len prefix in
  let len_suffix := Py.len suffix in
  if length <=? len_prefix + len_suffix then
    raise (ValueError ("length " +:+ Py.str length +:+ " is should be larger than "
                        +:+ Py.str (len_prefix + len_suffix)
                        +:+ " for prefix and suffix inputed."))
  else
    let length := Z.to_nat (length - (len_prefix + len_suffix)) in
    let* name := draw_name length prefix suffix in
    let* names_ := names in
    fun w => redraw (S (List.length (entropy w))) length prefix suffix names_ name w.

End Methods.

(** The operations of the client that make one request each, with their
    arguments. *)
Inductive Operation :=
| Names
| Info
| GetStatus
| SimilarId (name : string) (id_item : IdItem) (top_k : Z) (method : string)
| SimilarJson (name : string) (data_json : Json) (top_k : Z)
| Ids (name mode : string)
| IsValid (name : string)
| TempIds (name mode : string)
| InsertJson (name : string) (df_json : Json)
| SetupDatabase (name : string) (db_type : Json) (kwargs : list (string * Json))
| Append (name : string)
| DeleteRawData (name : string)
| DeleteDatabase (name : string).

Definition perform (self : jAI) (op : Operation) : M Net Reply :=
  match op with
  | Names => names self
  | Info => info self
  | GetStatus => status self
  | SimilarId name id_item top_k method => _similar_id self name id_item top_k method
  | SimilarJson name data_json top_k => _similar_json self name data_json top_k
  | Ids name mode => ids self name mode
  | IsValid name => is_valid self name
  | TempIds name mode => _temp_ids self name mode
  | InsertJson name df_json => _insert_json self name df_json
  | SetupDatabase name db_type kwargs => _setup_database self name db_type kwargs
  | Append name => _append self name
  | DeleteRawData name => delete_raw_data self name
  | DeleteDatabase name => delete_database self name
  end.


(** [_similar_id] refuses a method other than GET and PUT before it
    makes any request. *)
Definition makes_request (op : Operation) : bool :=
  match op with
  | SimilarId _ _ _ method => String.eqb method "GET" || String.eqb method "PUT"
  | _ => true
  end.

(** [range(start, stop, step)] for a step that is not zero: the values
    from [start], [step] apart, before [stop] is reached. *)
Fixpoint range_go (fuel : nat) (start stop step : Z) : list Z :=
  match fuel with
  | O => []
  | S fuel' =>
      if (if 0 <? step then start <? stop else stop <? start)
      then start :: range_go fuel' (start + step) stop step
      else []
  end.

(** [range(start, stop, step)] *)
Definition py_range (start stop step : Z) : outcome (list Z) :=
  if step =? 0 then Raise (ValueError "range() arg 3 must not be zero")
  else Ret (range_go (Z.to_nat (Z.abs (stop - start))) start stop step).

(** [data[b:e]] on the rows of a frame or on a list, for [0 <= b]. *)
Definition slice {A} (data : list A) (b e : Z) : list A :=
  firstn (Z.to_nat (e - b)) (skipn (Z.to_nat b) data).

Section Upload.
Variable self : jAI.

(** [data2json] of [auxiliar_funcs/utils_funcs.py], absent from the
    sources: the encoder of a batch, taken as a parameter. *)
Variable data2json : list Json -> Json -> outcome Json.

(** The [for] loop of [setup], lines 256-262, over the batch starts
    [trange(0, len(data), batch_size)]; the dictionary
    [insert_responses], keyed 0, 1, ..., is the list of its values. *)
Fixpoint insert_each (name : string) (data : list Json) (db_type : Json) (batch_size : Z)
  (starts : list Z) : M Net (list Reply) :=
  match starts with
  | [] => ret []
  | b :: starts' =>
      let _batch := slice data b (b + batch_size) in
      let* df_json := lift (data2json _batch db_type) in
      let* response := _insert_json self name df_json in
      let* insert_responses := insert_each name data db_type batch_size starts' in
      ret (response :: insert_responses)
  end.

(** [jAI.setup], lines 254-265 (the progress bar of [trange] is left
    out: it writes to the terminal only). *)
Definition setup (name : string) (data : list Json) (db_type : Json) (batch_size : Z)
  (kwargs : list (string * Json)) : M Net (list Reply * Reply) :=
  let* starts := lift (py_range 0 (Z.of_nat (length data)) batch_size) in
  let* insert_responses := insert_each name data db_type batch_size starts in
  let* setup_response := _setup_database self name db_type kwargs in
  ret (insert_responses, setup_response).

End Upload.

End Core.

(* ===================================================================== *)
(** ** The remote service as the trainers reach it                        *)
(* ===================================================================== *)

(** Modelled from the spec: the methods of [BaseJai] ([jai/core/base.py]),
    from which both [Trainer] classes inherit and which wraps one remote
    call per underscore method.  That file is absent from the sources; its
    methods are modelled here by what the callers and section 6 of the
    specification fix: the call made, the typed answer, and the change to
    the set of collections. *)
Module Remote.

(** A status record, as served under the collection's name by [/status]. *)
Record StatusRec := {
  Task : string;
  Status : string;
  Description : string;
  CurrentStep : Z;
  TotalSteps : Z
}.

(** What the service knows about a collection, as far as the trainers
    read it: its type. *)
Record DbInfo := { dtype : string }.

(** The newline character. *)
Definition nl : string := String (ascii_of_nat 10) EmptyString.

(** The text the [except KeyboardInterrupt:] clauses print. *)
Definition interruption_caught : string :=
  nl +:+ nl +:+ "Interruption caught!" +:+ nl +:+ nl.

(** A data frame: its rows, in index order. *)
Definition Frame : Type := list Json.

Inductive Call :=
| IsValid (name : string)
| Describe (name : string)
| Info
| GetStatus
| CancelSetup (name : string)
| DeleteStatus (name : string)
| DeleteRawData (name : string)
| DeleteDatabase (name : string)
| InsertBatch (name : string) (batch : Frame) (predict : bool)
| AppendData (name : string)
| StartSetup (name : string) (db_type : string) (overwrite : bool)
| Ids (name mode : string)
| Report (name : string) (verbose : Z)
| GetUser.

(** The two progress bars of [wait_setup]. *)
Inductive Bar := StepBar | IterationBar.

Inductive Effect :=
| Called (c : Call)
| Printed (text : string)
| Slept (seconds : Z)
| BarOpened (bar : Bar) (total : Z)
| BarUpdate (bar : Bar) (n : Z)
| BarClosed (bar : Bar)
| Plotted.

(** The world of a trainer: the collections of the environment, the
    scripted future of [/status] (what each fetch will deliver), the text
    the service answers to a call, and the log of what the trainer did. *)
Record World := {
  databases : gmap string DbInfo;
  status_feed : list (incoming (gmap string StatusRec));
  answers : Call -> string;
  id_lists : string -> list Json;
  trace : list Effect
}.

Definition set_trace (w : World) (t : list Effect) : World :=
  {| databases := databases w; status_feed := status_feed w;
     answers := answers w; id_lists := id_lists w; trace := t |}.

Definition set_feed (w : World) (f : list (incoming (gmap string StatusRec))) : World :=
  {| databases := databases w; status_feed := f;
     answers := answers w; id_lists := id_lists w; trace := trace w |}.

Definition set_databases (w : World) (d : gmap string DbInfo) : World :=
  {| databases := d; status_feed := status_feed w;
     answers := answers w; id_lists := id_lists w; trace := trace w |}.

Definition emit (e : Effect) : M World unit :=
  fun w => (Ret tt, set_trace w (trace w ++ [e])).

Definition print (text : string) : M World unit := emit (Printed text).

(** [time.sleep(seconds)] *)
Definition sleep (seconds : Z) : M World unit :=
  if seconds <? 0 then raise (ValueError "sleep length must be non-negative")
  else emit (Slept seconds).

(** A call answered with a message. *)
Definition call (c : Call) : M World string :=
  emit (Called c) >> fun w => (Ret (answers w c), w).

Definition _is_valid (name : string) : M World bool :=
  emit (Called (IsValid name)) >>
  fun w => (Ret (bool_decide (is_Some (databases w !! name))), w).

Definition _describe (name : string) : M World DbInfo :=
  emit (Called (Describe name)) >>
  fun w =>
    match databases w !! name with
    | Some d => (Ret d, w)
    | None => (Raise (ValueError (answers w (Describe name))), w)
    end.

(** The listing of [/info]: name and type of every collection. *)
Definition _info : M World (list (string * string)) :=
  emit (Called Info) >>
  fun w => (Ret (map (fun kv => (fst kv, dtype (snd kv))) (map_to_list (databases w))), w).

(** One fetch of [/status]: blocks until the service (or the user) acts. *)
Definition _status : M World (gmap string StatusRec) :=
  emit (Called GetStatus) >>
  fun w =>
    match status_feed w with
    | [] => (Blocked, w)
    | Answer d :: rest => (Ret d, set_feed w rest)
    | Throw e :: rest => (Raise e, set_feed w rest)
    end.

Definition _cancel_setup (name : string) : M World string := call (CancelSetup name).
Definition _delete_status (name : string) : M World string := call (DeleteStatus name).
Definition _delete_raw_data (name : string) : M World string := call (DeleteRawData name).
Definition _append (name : string) : M World string := call (AppendData name).
Definition _ids (name mode : string) : M World (list Json) :=
  emit (Called (Ids name mode)) >> fun w => (Ret (id_lists w name), w).
Definition _report (name : string) (verbose : Z) : M World string := call (Report name verbose).
Definition _user : M World string := call GetUser.

Definition _delete_database (name : string) : M World string :=
  let* response := call (DeleteDatabase name) in
  fun w => (Ret response, set_databases w (delete name (databases w))).

(** Training creates the collection. *)
Definition _setup (name db_type : string) (overwrite : bool) : M World string :=
  let* response := call (StartSetup name db_type overwrite) in
  fun w => (Ret response,
            set_databases w (<[name := {| dtype := db_type |}]> (databases w))).

(** [d.get(key)] on the items of a dictionary. *)
Fixpoint lookup_item {A} (key : string) (items : list (string * A)) : option A :=
  match items with
  | [] => None
  | (k, v) :: rest => if String.eqb k key then Some v else lookup_item key rest
  end.

(** [data[b:b+batch_size]] for [b] in [range(0, len(data), batch_size)] *)
Fixpoint batches (fuel : nat) (batch_size : nat) (data : Frame) : list Frame :=
  match fuel, data with
  | S fuel', _ :: _ => firstn batch_size data :: batches fuel' batch_size (skipn batch_size data)
  | _, _ => []
  end.

Fixpoint insert_batches (name : string) (predict : bool) (bs : list Frame)
  : M World (list string) :=
  match bs with
  | [] => ret []
  | b :: bs' =>
      let* r := call (InsertBatch name b predict) in
      let* rs := insert_batches name predict bs' in
      ret (r :: rs)
  end.

(** Modelled from the spec: [BaseJai._insert_data], absent from the
    sources.  Section 4.3: "data is split into fixed-size chunks (default
    16384 rows); each chunk is a separate request", sequentially. *)
Definition _insert_data (data : Frame) (name : string) (batch_size : Z) (predict : bool)
  : M World (list string) :=
  if batch_size =? 0 then raise (ValueError "range() arg 3 must not be zero")
  else if batch_size <? 0 then ret []
  else insert_batches name predict (batches (length data) (Z.to_nat batch_size) data).

(** Modelled from the spec: [check_response] of [jai/core/validations.py],
    absent from the sources.  Section 2: safe mode "parse[s] raw JSON
    into typed structures and raise[s] on shape mismatch"; the answers of
    this model are typed already, so the parse hands the value back. *)
Definition check_response {A} (response : A) : M World A := ret response.

(** [with tqdm(total=total, ...) as bar: body]: the bar is closed when the
    block is left, normally or by an exception. *)
Definition with_bar {A} (bar : Bar) (total : Z) (body : M World A) : M World A :=
  emit (BarOpened bar total) >>
  fun w =>
    match body w with
    | (Blocked, w') => (Blocked, w')
    | (OutOfFuel, w') => (OutOfFuel, w')
    | (r, w') => (r, set_trace w' (trace w' ++ [BarClosed bar]))
    end.

End Remote.

(* ===================================================================== *)
(** ** [jai/task/trainer.py] and [jai/task/base.py]                       *)
(* ===================================================================== *)

Module Task.
Import Remote.

(** [get_numbers(status)], lines 36-41. *)
Definition get_numbers (status : StatusRec) : outcome (bool * Z * Z) :=
  if Py.fnmatch (Description status) "*Iteration:*" then
    match nth_error (Py.split (Description status) "Iteration: ") 1 with
    | None => Raise IndexError
    | Some tail =>
        match Py.split (Py.strip tail) " / " with
        | [curr_step; max_iterations] =>
            match Py.int curr_step with
            | None => Raise (ValueError "invalid literal for int() with base 10")
            | Some curr_step =>
                match Py.int max_iterations with
                | None => Raise (ValueError "invalid literal for int() with base 10")
                | Some max_iterations => Ret (true, curr_step, max_iterations)
                end
            end
        | [] | [_] => Raise (ValueError "not enough values to unpack (expected 2)")
        | _ => Raise (ValueError "too many values to unpack (expected 2)")
        end
    end
  else Ret (false, 0, 0).

(** One turn of the loop of [flatten_sample], lines 45-49, on the values
    a decoded JSON document holds: a list is flattened in turn, a
    dictionary is iterated by its keys, which are strings and are yielded,
    and anything else is yielded as it is. *)
Fixpoint flatten_el (el : Json) : list Json :=
  match el with
  | JList items => flat_map flatten_el items
  | JDict items => map (fun kv => JStr (fst kv)) items
  | _ => [el]
  end.

(** [list(flatten_sample(sample))], lines 44-49.  Iterating a list yields
    its elements, a dictionary its keys, a string its characters; a
    number, a boolean or [None] cannot be iterated. *)
Definition flatten_sample (sample : Json) : outcome (list Json) :=
  match sample with
  | JList items => Ret (flat_map flatten_el items)
  | JDict items => Ret (map (fun kv => JStr (fst kv)) items)
  | JStr s => Ret (map (fun c => JStr (String c EmptyString)) (list_ascii_of_string s))
  | _ => Raise TypeError
  end.

Record InsertParams := { batch_size : Z; max_insert_workers : option Z }.

(** The validated setup parameters: the keys the trainer itself reads. *)
Record SetupParams := {
  db_type_param : string;
  pretrained_bases : list (string * string);   (* (db_parent, id_name) *)
  features : list string
}.

(** The attributes of a [Trainer] ([TaskBase.__init__], [Trainer.__init__]). *)
Record Trainer := {
  name : string;
  environment : string;
  env_var : string;
  verbose : Z;
  safe_mode : bool;
  _setup_params : option SetupParams;
  _insert_params : InsertParams
}.

Definition __init__ (name environment env_var : string) (verbose : Z) (safe_mode : bool)
  : Trainer :=
  {| name := name; environment := environment; env_var := env_var;
     verbose := verbose; safe_mode := safe_mode;
     _setup_params := None;
     _insert_params := {| batch_size := 16384; max_insert_workers := None |} |}.

(** The [data] argument of [fit]: a frame, a dictionary of frames, or
    anything else. *)
Inductive Data :=
| DataFrame (df : Frame)
| DataDict (items : list (string * Frame))
| OtherData.

(** Helpers and constants of [jai/core] and [jai/types] that the trainer
    uses and that are absent from the sources, taken as parameters. *)
Record Externals := {
  check_dtype_and_clean : Frame -> option string -> outcome Frame;
  check_filters : Frame -> list string -> bool;
  has_column : Frame -> string -> bool;
  frame_columns : Frame -> list string;
  flat_ids : Frame -> string -> outcome (list Json);   (* np.unique(list(flatten_sample(df[column]))) *)
  frame_ids : Frame -> list Json;                      (* the "id" column, else the index *)
  all_isin : list Json -> list Json -> bool;           (* np.isin(flat_ids, ids).all() *)
  print_args : Z -> list string;                       (* the lines print_args prints *)
  report_keys : string -> list string;                 (* the keys of a report *)
  selfsupervised : string;
  supervised : string;
  recommendation_system : string
}.

(** What [fit] returns. *)
Inductive Fitted :=
| Responses (insert_responses : list string) (setup_response : string)
| Towers (first second : string)
| Query (name : string).

Section Methods.
Variable ext : Externals.
Variable self : Trainer.

(** [TaskBase.is_valid] *)
Definition is_valid : M World bool := _is_valid (name self).

(** [TaskBase.describe] *)
Definition describe : M World DbInfo := _describe (name self).

(** [TaskBase.db_type] *)
Definition db_type : M World (option string) :=
  let* valid := is_valid in
  if valid then
    let* d := describe in
    ret (Some (dtype d))
  else ret None.

Definition insert_params : InsertParams := _insert_params self.

Definition setup_params : M World SetupParams :=
  match _setup_params self with
  | None => raise (ValueError "Generic error message.")
  | Some p => ret p
  end.

Definition delete_raw_data : M World string :=
  let* response := _delete_raw_data (name self) in
  if safe_mode self then check_response response else ret response.

Definition delete_database : M World string :=
  let* response := _delete_database (name self) in
  if safe_mode self then check_response response else ret response.

(** [Trainer.status], lines 390-411. *)
Definition status : M World StatusRec :=
  let* all := _status in
  match all !! name self with
  | None => raise (KeyError (name self))
  | Some status =>
      if safe_mode self then check_response status else ret status
  end.

Definition end_message : string := "Task ended successfully.".
Definition error_message : string := "Something went wrong.".

(** The inner [while iteration:] loop, lines 513-522.  [n] is
    [iteration_bar.n].  Hands back [n], [sleep_time] and [status] as
    they stand when the loop is left. *)
Fixpoint iteration_loop (fuel : nat) (frequency_seconds : Z)
  (iteration : bool) (n sleep_time : Z) (status_ : StatusRec)
  : M World (Z * Z * StatusRec) :=
  match fuel with
  | O => lift OutOfFuel
  | S fuel' =>
      if iteration then
        let* numbers := lift (get_numbers status_) in
        let '(iteration, curr_step, _) := numbers in
        let step_update := curr_step - n in
        let* bar :=
          if 0 <? step_update then
            emit (BarUpdate IterationBar step_update) >>
            ret (n + step_update, frequency_seconds)
          else ret (n, sleep_time + frequency_seconds) in
        let '(n, sleep_time) := bar in
        sleep sleep_time >>
        let* status_ := status in
        iteration_loop fuel' frequency_seconds iteration n sleep_time status_
      else ret (n, sleep_time, status_)
  end.

(** The local variables of [wait_setup] that the outer loop updates. *)
Record Locals := {
  current : Z;
  step : Z;
  is_init : bool;
  sleep_time_ : Z
}.

(** The outer [while status["Status"] != end_message:] loop, lines
    502-538. *)
Fixpoint polling_loop (fuel : nat) (frequency_seconds : Z)
  (v : Locals) (status_ : StatusRec) : M World (Locals * StatusRec) :=
  match fuel with
  | O => lift OutOfFuel
  | S fuel' =>
      if negb (String.eqb (Status status_) end_message) then
        if String.eqb (Status status_) error_message then
          raise (BaseException (JStr (Description status_)))
        else
          let* numbers := lift (get_numbers status_) in
          let '(iteration, _, max_iterations) := numbers in
          let* inner :=
            if iteration then
              with_bar IterationBar max_iterations
                (let* left := iteration_loop fuel' frequency_seconds iteration 0
                                (sleep_time_ v) status_ in
                 let '(n, sleep_time, status_) := left in
                 emit (BarUpdate IterationBar (max_iterations - n)) >>
                 ret (sleep_time, status_))
            else ret (sleep_time_ v, status_) in
          let '(sleep_time, status_) := inner in
          let* current_ :=
            if (step v =? current v) && is_init v then
              emit (BarUpdate StepBar (current v)) >>
              ret (current v)
            else
              emit (BarUpdate StepBar (step v - current v)) >>
              ret (step v) in
          let step_ := CurrentStep status_ in
          sleep frequency_seconds >>
          let* status_ := status in
          polling_loop fuel' frequency_seconds
            {| current := current_; step := step_; is_init := false;
               sleep_time_ := sleep_time |} status_
      else ret (v, status_)
  end.

(** The [try] block of [wait_setup], lines 497-543. *)
Definition polling (fuel : nat) (frequency_seconds : Z) (status_ : StatusRec)
  : M World StatusRec :=
  let current_ := CurrentStep status_ in
  let max_steps := TotalSteps status_ in
  with_bar StepBar max_steps
    (let* left := polling_loop fuel frequency_seconds
                    {| current := current_; step := current_; is_init := true;
                       sleep_time_ := frequency_seconds |} status_ in
     let '(v, status_) := left in
     (if negb (current v =? max_steps) && negb (is_init v) then
        emit (BarUpdate StepBar (max_steps - current v))
      else if negb (current v =? max_steps) && is_init v then
        emit (BarUpdate StepBar max_steps)
      else ret tt) >>
     ret status_).

(** The [except KeyboardInterrupt:] clause, lines 545-550. *)
Definition on_interrupt (e : exn) : option (M World StatusRec) :=
  match e with
  | KeyboardInterrupt _ =>
      Some (print interruption_caught >>
            let* response := _cancel_setup (name self) in
            let* response :=
              if safe_mode self then check_response response else ret response in
            raise (KeyboardInterrupt (Some response)))
  | _ => None
  end.

(** [Trainer.wait_setup], lines 473-555. *)
Definition wait_setup (frequency_seconds : Z) : M World StatusRec :=
  let* status_ := status in
  let* status_ :=
    fun w =>
      try_except (polling (2 + length (status_feed w)) frequency_seconds status_)
                 on_interrupt w in
  let* response := _delete_status (name self) in
  (if safe_mode self then check_response response else ret response) >>
  ret status_.

(** The pair [flat_ids], [ids] of [_check_pretrained_bases]; [None]
    while a variable is unbound. *)
Definition Found : Type := option (list Json) * option (list Json).

(** Lines 197-202: [for df in data.values(): if column in df.columns: ...] *)
Fixpoint ids_from_frames (parent_name column : string) (dfs : list Frame) (found : Found)
  : M World Found :=
  match dfs with
  | [] => ret found
  | df :: dfs' =>
      if has_column ext df column then
        let* flat := lift (flat_ids ext df column) in
        let* ids := _ids parent_name "complete" in
        let* ids := if safe_mode self then check_response ids else ret ids in
        ids_from_frames parent_name column dfs' (Some flat, Some ids)
      else ids_from_frames parent_name column dfs' found
  end.

(** [Trainer._check_pretrained_bases], lines 179-210. *)
Fixpoint check_bases_from (data : Data) (bases : list (string * string)) (found : Found)
  : M World unit :=
  match bases with
  | [] => ret tt
  | (parent_name, column) :: rest =>
      let* found :=
        match data with
        | DataFrame df =>
            let* flat := lift (flat_ids ext df column) in
            let* ids := _ids parent_name "complete" in
            let* ids := if safe_mode self then check_response ids else ret ids in
            ret (Some flat, Some ids)
        | DataDict items =>
            match lookup_item parent_name items with
            | Some data_parent =>
                match lookup_item "main" items with
                | None => raise (KeyError "main")
                | Some main =>
                    let df := default main (lookup_item (name self) items) in
                    let* flat := lift (flat_ids ext df column) in
                    ret (Some flat, Some (frame_ids ext data_parent))
                end
            | None => ids_from_frames parent_name column (map snd items) found
            end
        | OtherData => raise (AttributeError "keys")
        end in
      match found with
      | (Some flat, Some ids) =>
          if all_isin ext flat ids then
            print ("YES: " +:+ column +:+ "->" +:+ parent_name) >>
            check_bases_from data rest found
          else
            raise (KeyError ("Id values on column `" +:+ column
                               +:+ "` must belong to the set of Ids from database "
                               +:+ parent_name +:+ "."))
      | (None, _) => raise (UnboundLocalError "flat_ids")
      | (_, None) => raise (UnboundLocalError "ids")
      end
  end.

Definition _check_pretrained_bases (data : Data) (bases : list (string * string))
  : M World unit :=
  check_bases_from data bases (None, None).

Fixpoint print_lines (lines : list string) : M World unit :=
  match lines with
  | [] => ret tt
  | l :: rest => print l >> print_lines rest
  end.

(** [Trainer.report(verbose)] with [return_report=False], lines 413-471. *)
Definition report (verbose_ : Z) : M World unit :=
  let* t := db_type in
  if negb (existsb (fun k => bool_decide (t = Some k))
             [selfsupervised ext; supervised ext; recommendation_system ext])
  then ret tt
  else
    let* report_ := _report (name self) verbose_ in
    let* report_ := if safe_mode self then check_response report_ else ret report_ in
    (if existsb (String.eqb "Model Training") (report_keys ext report_)
     then emit Plotted else ret tt) >>
    print (nl +:+ "Setup Report:") >>
    (if existsb (String.eqb "Model Evaluation") (report_keys ext report_)
     then print "Model Evaluation" else ret tt) >>
    print "" >>
    (if existsb (String.eqb "Loading from checkpoint") (report_keys ext report_)
     then print "Loading from checkpoint" else ret tt).

(** [Trainer.get_query(name)] *)
Definition get_query (name_ : option string) : string :=
  default (name self) name_.

(** Lines 276-297: [for name, value in data.items(): ...] *)
Fixpoint insert_items (items : list (string * Frame)) (last : option (list string))
  : M World (option (list string)) :=
  match items with
  | [] => ret last
  | (name_, value) :: rest =>
      let* t := db_type in
      let* value := lift (check_dtype_and_clean ext value t) in
      let name_ := if String.eqb name_ "main" then name self else name_ in
      _delete_raw_data name_ >>
      let* insert_responses :=
        _insert_data value name_ (batch_size insert_params) false in
      insert_items rest (Some insert_responses)
  end.

(** [Trainer.fit], lines 212-331. *)
Definition fit (data : Data) (overwrite : bool) (frequency_seconds : Z) : M World Fitted :=
  let* valid := is_valid in
  (if valid then
     if overwrite then delete_database >> ret tt
     else raise (KeyError ("Database '" +:+ name self
                             +:+ "' already exists in your environment."
                             +:+ "                        Set overwrite=True to overwrite it."))
   else ret tt) >>
  let* params := setup_params in
  _check_pretrained_bases data (pretrained_bases params) >>
  let* insert_responses :=
    match data with
    | DataFrame df =>
        let* t := db_type in
        let* df := lift (check_dtype_and_clean ext df t) in
        _delete_raw_data (name self) >>
        let* insert_responses :=
          _insert_data df (name self) (batch_size insert_params) false in
        ret (Some insert_responses)
    | DataDict items => insert_items items None
    | OtherData => raise (ValueError "Generic Data Error Message")
    end in
  let* setup_response := _setup (name self) (db_type_param params) overwrite in
  let* setup_response :=
    if safe_mode self then check_response setup_response else ret setup_response in
  print_lines (print_args ext (verbose self)) >>
  if frequency_seconds <? 1 then
    match insert_responses with
    | Some insert_responses => ret (Responses insert_responses setup_response)
    | None => raise (UnboundLocalError "insert_responses")
    end
  else
    wait_setup frequency_seconds >>
    report (verbose self) >>
    if String.eqb (db_type_param params) (recommendation_system ext) then
      let towers :=
        match data with
        | DataFrame df => frame_columns ext df
        | DataDict items => map fst items
        | OtherData => []
        end in
      match towers with
      | first :: second :: _ => ret (Towers (get_query (Some first)) (get_query (Some second)))
      | _ => raise IndexError
      end
    else ret (Query (get_query None)).

(** [Trainer.append], lines 333-388. *)
Definition append (data : Frame) (frequency_seconds : Z) : M World (list string * string) :=
  let* valid := is_valid in
  if negb valid then
    raise (KeyError ("Database '" +:+ name self
                       +:+ "' does not exist in your environment." +:+ nl
                       +:+ "Run a `setup` set your database up first."))
  else
    delete_raw_data >>
    let* t := db_type in
    let* data := lift (check_dtype_and_clean ext data t) in
    _delete_raw_data (name self) >>
    let* t := db_type in
    let* described := describe in
    let* insert_responses :=
      _insert_data data (name self) (batch_size insert_params) true in
    let* add_data_response := _append (name self) in
    let* add_data_response :=
      if safe_mode self then check_response add_data_response else ret add_data_response in
    (if 1 <=? frequency_seconds then wait_setup frequency_seconds >> ret tt else ret tt) >>
    ret (insert_responses, add_data_response).

End Methods.
End Task.

(* ===================================================================== *)
(** ** [jai/setup/trainer.py]                                             *)
(* ===================================================================== *)

Module Setup.
Import Remote.

Record InsertParams := {
  batch_size : Z;
  filter_name : option string;
  overwrite_ : bool;
  max_insert_workers : option Z
}.

(** The attributes of this [Trainer].  [_type] caches the collection type
    found by the last successful lookup; [_insert_params] is read by the
    property [insert_params] and is not assigned by [__init__] ([None]:
    the attribute is missing). *)
Record Trainer := {
  name : string;
  safe_mode : bool;
  verbose : Z;
  _type : option string;
  _setup_params : option string;          (* the db_type of the validated parameters *)
  _insert_params : option InsertParams;
  _user_ : string
}.

Definition set_type (self : Trainer) (t : option string) : Trainer :=
  {| name := name self; safe_mode := safe_mode self; verbose := verbose self;
     _type := t; _setup_params := _setup_params self;
     _insert_params := _insert_params self; _user_ := _user_ self |}.

(** The state of a method call: the object and the world. *)
Definition State : Type := Trainer * World.

Definition remote {A} (m : M World A) : M State A :=
  fun s => let '(o, w) := m (snd s) in (o, (fst s, w)).

Definition this : M State Trainer := fun s => (Ret (fst s), s).

Definition assign_type (t : option string) : M State unit :=
  fun s => (Ret tt, (set_type (fst s) t, snd s)).

(** The property [db_type], lines 90-100.  The frame built from an empty
    listing has no column ["db_name"], and subscripting it raises. *)
Definition db_type : M State (option string) :=
  let* self := this in
  let* info := remote _info in
  let* info := if safe_mode self then remote (check_response info) else ret info in
  match info with
  | [] => raise (KeyError "db_name")
  | _ :: _ =>
      (match lookup_item (name self) info with
       | Some t => assign_type (Some t)
       | None => ret tt
       end) >>
      let* self := this in
      ret (_type self)
  end.

(** [Trainer.exists], lines 166-167: [return self.db_type is None]. *)
Definition exists_ : M State bool :=
  let* t := db_type in
  ret (match t with None => true | Some _ => false end).

(** [Trainer.__init__], lines 44-84; the setter of [name] calls [exists]. *)
Definition __init__ (name_ : string) (verbose_ : Z) (safe_mode_ : bool) : M World Trainer :=
  let* user := _user in
  let* user := if safe_mode_ then check_response user else ret user in
  (if verbose_ =? 0 then ret tt
   else print ("Connection established." +:+ nl +:+ user)) >>
  fun w =>
    let self := {| name := name_; safe_mode := safe_mode_; verbose := verbose_;
                   _type := None; _setup_params := None; _insert_params := None;
                   _user_ := user |} in
    match exists_ (self, w) with
    | (Ret _, (self', w')) => (Ret self', w')
    | (Raise e, (_, w')) => (Raise e, w')
    | (Blocked, (_, w')) => (Blocked, w')
    | (OutOfFuel, (_, w')) => (OutOfFuel, w')
    end.

Definition insert_params : M State InsertParams :=
  let* self := this in
  match _insert_params self with
  | None => raise (AttributeError "_insert_params")
  | Some p => ret p
  end.

Definition setup_params : M State string :=
  let* self := this in
  match _setup_params self with
  | None => raise (ValueError "Generic error message.")
  | Some p => ret p
  end.

(** What [Trainer.status] hands back: the whole dictionary of [_status],
    or the record of this collection. *)
Inductive StatusValue :=
| Whole (all : gmap string StatusRec)
| Indexed (r : StatusRec).

(** A Python value met while polling. *)
Inductive PyVal :=
| VInt (n : Z)
| VStr (s : string)
| VRec (r : StatusRec).

Definition json_of_record (r : StatusRec) : Json :=
  JDict [("Task", JStr (Task r)); ("Status", JStr (Status r));
         ("Description", JStr (Description r));
         ("CurrentStep", JNum (CurrentStep r)); ("TotalSteps", JNum (TotalSteps r))].

Definition json_of (v : PyVal) : Json :=
  match v with
  | VInt n => JNum n
  | VStr s => JStr s
  | VRec r => json_of_record r
  end.

(** [status[key]] *)
Definition item (status_ : StatusValue) (key : string) : outcome PyVal :=
  match status_ with
  | Whole all =>
      match all !! key with
      | Some r => Ret (VRec r)
      | None => Raise (KeyError key)
      end
  | Indexed r =>
      if String.eqb key "Task" then Ret (VStr (Task r))
      else if String.eqb key "Status" then Ret (VStr (Status r))
      else if String.eqb key "Description" then Ret (VStr (Description r))
      else if String.eqb key "CurrentStep" then Ret (VInt (CurrentStep r))
      else if String.eqb key "TotalSteps" then Ret (VInt (TotalSteps r))
      else Raise (KeyError key)
  end.

(** [v == s] for a string [s] *)
Definition is_str (v : PyVal) (s : string) : bool :=
  match v with
  | VStr t => String.eqb t s
  | _ => false
  end.

(** [a == b] where both come out of status records *)
Definition same (a b : PyVal) : bool :=
  match a, b with
  | VInt x, VInt y => x =? y
  | VStr x, VStr y => String.eqb x y
  | VRec x, VRec y =>
      String.eqb (Task x) (Task y) && String.eqb (Status x) (Status y)
      && String.eqb (Description x) (Description y)
      && (CurrentStep x =? CurrentStep y) && (TotalSteps x =? TotalSteps y)
  | _, _ => false
  end.

(** [a - b] *)
Definition minus (a b : PyVal) : outcome Z :=
  match a, b with
  | VInt x, VInt y => Ret (x - y)
  | _, _ => Raise TypeError
  end.

(** A number where [tqdm] needs one ([total=], [update(n)]). *)
Definition number (v : PyVal) : outcome Z :=
  match v with
  | VInt x => Ret x
  | _ => Raise TypeError
  end.

(** What the nested [get_numbers] returns: a pair or a triple. *)
Inductive Tuple :=
| Pair (a b : Z)
| Triple (a : bool) (b c : Z).

(** The nested [get_numbers(sts)], lines 376-381. *)
Definition get_numbers (sts : StatusValue) : outcome Tuple :=
  match item sts "Description" with
  | Ret (VStr description) =>
      if Py.fnmatch description "*Iteration:*" then
        match nth_error (Py.split description "Iteration: ") 1 with
        | None => Raise IndexError
        | Some tail =>
            match Py.split (Py.strip tail) " / " with
            | [curr_step; max_iterations] =>
                match Py.int curr_step with
                | None => Raise (ValueError "invalid literal for int() with base 10")
                | Some curr_step =>
                    match Py.int max_iterations with
                    | None => Raise (ValueError "invalid literal for int() with base 10")
                    | Some max_iterations => Ret (Pair curr_step max_iterations)
                    end
                end
            | [] | [_] => Raise (ValueError "not enough values to unpack (expected 2)")
            | _ => Raise (ValueError "too many values to unpack (expected 2)")
            end
        end
      else Ret (Triple false 0 0)
  | Ret _ => Raise TypeError
  | Raise e => Raise e
  | Blocked => Blocked
  | OutOfFuel => OutOfFuel
  end.

(** [a, b, c = t] *)
Definition unpack3 (t : Tuple) : outcome (bool * Z * Z) :=
  match t with
  | Triple a b c => Ret (a, b, c)
  | Pair _ _ => Raise (ValueError "not enough values to unpack (expected 3, got 2)")
  end.

Section Polling.
Variable self : Trainer.

(** The [for _ in range(max_tries)] loop of [Trainer.status]. *)
Fixpoint status_tries (tries : nat) (pause : Z) : M World (option StatusValue) :=
  match tries with
  | O => ret None
  | S tries' =>
      fun w =>
        match _status w with
        | (Ret status_, w') =>
            (if safe_mode self then
               let* status_ := check_response status_ in ret (Some (Whole status_))
             else ret (Some (Whole status_))) w'
        | (Raise _, w') => (sleep pause >> status_tries tries' pause) w'
        | (Blocked, w') => (Blocked, w')
        | (OutOfFuel, w') => (OutOfFuel, w')
        end
  end.

(** [Trainer.status(max_tries, patience)], lines 262-295. *)
Definition status (max_tries : nat) (patience : Z) : M World StatusValue :=
  let* early := status_tries max_tries (patience / Z.of_nat max_tries) in
  match early with
  | Some status_ => ret status_
  | None =>
      let* status_ := _status in
      if safe_mode self then
        let* status_ := check_response status_ in ret (Whole status_)
      else
        match status_ !! name self with
        | Some r => ret (Indexed r)
        | None => raise (KeyError (name self))
        end
  end.

Definition end_message : string := "Task ended successfully.".
Definition error_message : string := "Something went wrong.".

(** The inner [while iteration:] loop, lines 406-415. *)
Fixpoint iteration_loop (fuel : nat) (frequency_seconds : Z)
  (iteration : bool) (n sleep_time : Z) (status_ : StatusValue)
  : M World (Z * Z * StatusValue) :=
  match fuel with
  | O => lift OutOfFuel
  | S fuel' =>
      if iteration then
        let* numbers := lift (get_numbers status_) in
        let* numbers := lift (unpack3 numbers) in
        let '(iteration, curr_step, _) := numbers in
        let step_update := curr_step - n in
        let* bar :=
          if 0 <? step_update then
            emit (BarUpdate IterationBar step_update) >>
            ret (n + step_update, frequency_seconds)
          else ret (n, sleep_time + frequency_seconds) in
        let '(n, sleep_time) := bar in
        sleep sleep_time >>
        let* status_ := status 5 25 in
        iteration_loop fuel' frequency_seconds iteration n sleep_time status_
      else ret (n, sleep_time, status_)
  end.

Record Locals := {
  current : PyVal;
  step : PyVal;
  is_init : bool;
  sleep_time_ : Z
}.

(** [pbar.update(n)] on the outer bar *)
Definition pbar_update (n : outcome Z) : M World unit :=
  let* n := lift n in
  emit (BarUpdate StepBar n).

(** The outer [while] loop, lines 397-430. *)
Fixpoint polling_loop (fuel : nat) (frequency_seconds : Z)
  (v : Locals) (status_ : StatusValue) : M World (Locals * StatusValue) :=
  match fuel with
  | O => lift OutOfFuel
  | S fuel' =>
      let* st := lift (item status_ "Status") in
      if negb (is_str st end_message) then
        let* st := lift (item status_ "Status") in
        if is_str st error_message then
          let* description := lift (item status_ "Description") in
          raise (BaseException (json_of description))
        else
          let* numbers := lift (get_numbers status_) in
          let* numbers := lift (unpack3 numbers) in
          let '(iteration, _, max_iterations) := numbers in
          let* inner :=
            if iteration then
              with_bar IterationBar max_iterations
                (let* left := iteration_loop fuel' frequency_seconds iteration 0
                                (sleep_time_ v) status_ in
                 let '(n, sleep_time, status_) := left in
                 emit (BarUpdate IterationBar (max_iterations - n)) >>
                 ret (sleep_time, status_))
            else ret (sleep_time_ v, status_) in
          let '(sleep_time, status_) := inner in
          let* current_ :=
            if same (step v) (current v) && is_init v then
              pbar_update (number (current v)) >>
              ret (current v)
            else
              pbar_update (minus (step v) (current v)) >>
              ret (step v) in
          let* step_ := lift (item status_ "CurrentStep") in
          sleep frequency_seconds >>
          let* status_ := status 5 25 in
          polling_loop fuel' frequency_seconds
            {| current := current_; step := step_; is_init := false;
               sleep_time_ := sleep_time |} status_
      else ret (v, status_)
  end.

(** The [try] block, lines 393-435. *)
Definition polling (fuel : nat) (frequency_seconds : Z)
  (current_ max_steps : PyVal) (status_ : StatusValue) : M World StatusValue :=
  let* total := lift (number max_steps) in
  with_bar StepBar total
    (let* left := polling_loop fuel frequency_seconds
                    {| current := current_; step := current_; is_init := true;
                       sleep_time_ := frequency_seconds |} status_ in
     let '(v, status_) := left in
     (if negb (same (current v) max_steps) && negb (is_init v) then
        pbar_update (minus max_steps (current v))
      else if negb (same (current v) max_steps) && is_init v then
        pbar_update (number max_steps)
      else ret tt) >>
     ret status_).

(** The [except KeyboardInterrupt:] clause, lines 437-442. *)
Definition on_interrupt (e : exn) : option (M World StatusValue) :=
  match e with
  | KeyboardInterrupt _ =>
      Some (print interruption_caught >>
            let* response := _cancel_setup (name self) in
            let* response :=
              if safe_mode self then check_response response else ret response in
            raise (KeyboardInterrupt (Some response)))
  | _ => None
  end.

(** [Trainer.wait_setup], lines 355-447; [None] is Python's [None]. *)
Definition wait_setup (frequency_seconds : Z) : M World (option StatusValue) :=
  if frequency_seconds <=? 1 then ret None
  else
    let* status_ := status 5 25 in
    let* current_ := lift (item status_ "CurrentStep") in
    let* max_steps := lift (item status_ "TotalSteps") in
    let* status_ :=
      fun w =>
        try_except
          (polling (2 + length (status_feed w)) frequency_seconds current_ max_steps status_)
          on_interrupt w in
    let* response := _delete_status (name self) in
    (if safe_mode self then check_response response else ret response) >>
    ret (Some status_).

End Polling.

Section Lifecycle.
Variable ext : Task.Externals.

Definition delete_raw_data : M State string :=
  let* self := this in
  let* response := remote (_delete_raw_data (name self)) in
  if safe_mode self then remote (check_response response) else ret response.

(** [self.delete_database()] is called by [setup] and not defined in
    this class; it is taken to be the method of the same name that
    [jai/task/trainer.py] spells out. *)
Definition delete_database : M State string :=
  let* self := this in
  let* response := remote (_delete_database (name self)) in
  if safe_mode self then remote (check_response response) else ret response.

(** [Trainer.report(verbose)], lines 297-353. *)
Definition report (verbose_ : Z) : M State unit :=
  let* t := db_type in
  if negb (existsb (fun k => bool_decide (t = Some k))
             [Task.selfsupervised ext; Task.supervised ext; Task.recommendation_system ext])
  then ret tt
  else
    let* self := this in
    let* report_ := remote (_report (name self) verbose_) in
    let* report_ :=
      if safe_mode self then remote (check_response report_) else ret report_ in
    remote
      ((if existsb (String.eqb "Model Training") (Task.report_keys ext report_)
        then emit Plotted else ret tt) >>
       print (nl +:+ "Setup Report:") >>
       (if existsb (String.eqb "Model Evaluation") (Task.report_keys ext report_)
        then print "Model Evaluation" else ret tt) >>
       print "" >>
       (if existsb (String.eqb "Loading from checkpoint") (Task.report_keys ext report_)
        then print "Loading from checkpoint" else ret tt)).

(** [Trainer.setup], lines 169-206.  The response of [_setup] carries
    the arguments under ["kwargs"] ([jai/task/trainer.py], line 312);
    the subscript ['kwags'] of line 200 finds no such key. *)
Definition setup (data : Frame) (overwrite : bool) (frequency_seconds : Z)
  : M State (list string * string) :=
  let* found := exists_ in
  (if found then
     if overwrite then delete_database >> ret tt
     else
       let* self := this in
       raise (KeyError ("Database '" +:+ name self
                          +:+ "' already exists in your environment."
                          +:+ "                        Set overwrite=True to overwrite it."))
   else ret tt) >>
  let* params := setup_params in
  let* t := db_type in
  let* data := lift (Task.check_dtype_and_clean ext data t) in
  let* self := this in
  let* t := db_type in
  let* ip := insert_params in
  let* insert_responses :=
    remote (_insert_data data (name self) (batch_size ip) false) in
  let* setup_response := remote (_setup (name self) params overwrite) in
  let* kwags := lift (Raise (KeyError "kwags") : outcome (list string)) in
  remote (Task.print_lines kwags) >>
  (if 1 <=? frequency_seconds then
     remote (wait_setup self frequency_seconds) >>
     report (verbose self)
   else ret tt) >>
  ret (insert_responses, setup_response).

(** [Trainer.append], lines 208-260. *)
Definition append (data : Frame) (frequency_seconds : Z)
  : M State (list string * string) :=
  let* absent := exists_ in
  if absent then
    let* self := this in
    raise (KeyError ("Database '" +:+ name self
                       +:+ "' does not exist in your environment." +:+ nl
                       +:+ "Run a `setup` set your database up first."))
  else
    delete_raw_data >>
    let* t := db_type in
    let* data := lift (Task.check_dtype_and_clean ext data t) in
    let* self := this in
    let* t := db_type in
    let* ip := insert_params in
    let* insert_responses :=
      remote (_insert_data data (name self) (batch_size ip) true) in
    let* add_data_response := remote (_append (name self)) in
    let* add_data_response :=
      if safe_mode self then remote (check_response add_data_response)
      else ret add_data_response in
    (if 1 <=? frequency_seconds then
       remote (wait_setup self frequency_seconds) >> ret tt
     else ret tt) >>
    ret (insert_responses, add_data_response).

End Lifecycle.
End Setup.

(* ===================================================================== *)
(** * Vocabulary of the properties                                        *)
(* ===================================================================== *)

Section Vocabulary.
Import Remote.

Definition Feed : Type := list (incoming (gmap string StatusRec)).

(** [triple good P m Q]: started with a status feed satisfying [P], [m]
    adds to the trace only effects satisfying [good], leaves the rest of
    the world as it is, and when it returns [a] the remaining feed
    satisfies [Q a]. *)
Definition triple {A} (good : Effect -> Prop) (P : Feed -> Prop)
    (m : M World A) (Q : A -> Feed -> Prop) : Prop :=
  forall w, P (status_feed w) ->
    (exists t, trace (snd (m w)) = trace w ++ t /\ Forall good t) /\
    answers (snd (m w)) = answers w /\
    databases (snd (m w)) = databases w /\
    (forall a, fst (m w) = Ret a -> Q a (status_feed (snd (m w)))).

(** [quiet good m]: whatever the feed, [m] only adds [good] effects to
    the trace and leaves answers and collections alone. *)
Definition quiet {A} (good : Effect -> Prop) (m : M World A) : Prop :=
  triple good (fun _ => True) m (fun _ _ => True).

End Vocabulary.


(** The effects of the inner loop: as above, and every update of the
    iteration bar is strictly positive. *)
Definition iteration_effect (e : Remote.Effect) : Prop :=
  match e with
  | Remote.Called Remote.GetStatus
  | Remote.Slept _ => True
  | Remote.BarUpdate Remote.IterationBar n => 0 < n
  | _ => False
  end.


(** The fetch [ev] delivers the record [r] for the collection [name]. *)
Definition tells (name : string) (r : Remote.StatusRec)
    (ev : incoming (gmap string Remote.StatusRec)) : Prop :=
  exists d, ev = Answer d /\ d !! name = Some r.

Section TaskVocabulary.
Import Remote.


End TaskVocabulary.

Section CoreVocabulary.
Import Core.




End CoreVocabulary.




(** [refines m m']: [m'] does what [m] does, wherever [m] is not stopped
    by its loop bound. *)
Definition refines {A} (m m' : M Remote.World A) : Prop :=
  forall w, fst (m w) = OutOfFuel \/ m w = m' w.

(** The world [w] with more of the future scripted. *)
Definition push (w : Remote.World) (tail : Feed) : Remote.World :=
  Remote.set_feed w (Remote.status_feed w ++ tail).


(** The records that the feed holds for [name] report a [CurrentStep]
    that never decreases, starting from [lo] and staying below [hi].  A
    fetch that throws, or that lacks the collection, ends the polling, so
    nothing is asked beyond it. *)
Fixpoint steady (name : string) (lo hi : Z) (feed : Feed) : Prop :=
  match feed with
  | Answer d :: rest =>
      match d !! name with
      | Some r =>
          lo <= Remote.CurrentStep r <= hi /\ steady name (Remote.CurrentStep r) hi rest
      | None => True
      end
  | _ => True
  end.

(** The same for a whole feed, first record included: its [CurrentStep]
    lies between 0 and its [TotalSteps], which bounds the later ones. *)
Definition progresses (name : string) (feed : Feed) : Prop :=
  match feed with
  | Answer d :: rest =>
      match d !! name with
      | Some r =>
          0 <= Remote.CurrentStep r <= Remote.TotalSteps r
          /\ steady name (Remote.CurrentStep r) (Remote.TotalSteps r) rest
      | None => True
      end
  | _ => True
  end.

(** An effect that does not move the step bar backwards. *)
Definition step_bar_advances (e : Remote.Effect) : Prop :=
  match e with
  | Remote.BarUpdate Remote.StepBar n => 0 <= n
  | _ => True
  end.

(** What [wait_setup] of [jai/task/trainer.py] does once its first fetch
    has been answered with [s], [feed_length] answers being left. *)
Definition after_first_fetch (self : Task.Trainer) (fs : Z) (s : Remote.StatusRec)
    (feed_length : nat) : M Remote.World Remote.StatusRec :=
  let* status_ := try_except (Task.polling self (2 + feed_length) fs s)
                             (Task.on_interrupt self) in
  let* response := Remote._delete_status (Task.name self) in
  (if Task.safe_mode self then Remote.check_response response else ret response) >>
  ret status_.

(** [fueled P m Q]: started with a status feed satisfying [P], [m] does
    not run into the loop bound of the model, and when it returns [a] the
    remaining feed satisfies [Q a]. *)
Definition fueled {A} (P : Feed -> Prop) (m : M Remote.World A) (Q : A -> Feed -> Prop)
  : Prop :=
  forall w, P (Remote.status_feed w) ->
    fst (m w) <> OutOfFuel
    /\ (forall a, fst (m w) = Ret a -> Q a (Remote.status_feed (snd (m w)))).




Section CoreLoopVocabulary.
Import Core.




End CoreLoopVocabulary.

Section CoreUploadVocabulary.
Import Core.



Definition setup_request (self : jAI) (name : string) (db_type : Json)
    (kwargs : list (string * Json)) : Request :=
  {| verb := POST; url := base_api_url self +:+ "/setup/" +:+ name;
     headers := header self; data := Some (JDict (dict_set "db_type" db_type kwargs)) |}.

End CoreUploadVocabulary.

Section CoreRequestVocabulary.
Import Core.
(** An effect that is the printing of a body. *)
Definition is_print (e : Effect) : Prop :=
  match e with Printed _ => True | _ => False end.
End CoreRequestVocabulary.

Section TaskNumbersVocabulary.


(** A character a pattern of [fnmatch] matches literally. *)
Definition literal (c : ascii) : Prop := c <> "*"%char /\ c <> "?"%char /\ c <> "["%char.
End TaskNumbersVocabulary.

Section TaskFlattenVocabulary.
(** A value [flatten_sample] yields as it is: no list, no dictionary. *)
Definition scalar (j : Json) : Prop :=
  match j with
  | JList _ | JDict _ => False
  | _ => True
  end.
End TaskFlattenVocabulary.

Section TaskLifecycleVocabulary.
Import Remote.
(** What [_check_pretrained_bases] does for the bases it accepts: for
    each one the ids of the parent are fetched and a line is printed. *)
Definition base_checks (bases : list (string * string)) : list Effect :=
  flat_map (fun b => [Called (Ids (fst b) "complete");
                      Printed ("YES: " +:+ snd b +:+ "->" +:+ fst b)]) bases.

(** A base whose column of the frame [df] only holds ids of the parent
    collection. *)
Definition base_ok (ext : Task.Externals) (df : Frame) (w : World) (b : string * string)
  : Prop :=
  exists flat, Task.flat_ids ext df (snd b) = Ret flat
               /\ Task.all_isin ext flat (id_lists w (fst b)) = true.

(** Helpers for which no id is ever known to the parent collection. *)
Definition strict_externals : Task.Externals :=
  {| Task.check_dtype_and_clean := fun df _ => Ret df;
     Task.check_filters := fun _ _ => false;
     Task.has_column := fun _ _ => false;
     Task.frame_columns := fun _ => [];
     Task.flat_ids := fun df _ => Ret df;
     Task.frame_ids := fun _ => [];
     Task.all_isin := fun flat ids => match flat, ids with [], _ => true | _, _ => false end;
     Task.print_args := fun _ => [];
     Task.report_keys := fun _ => [];
     Task.selfsupervised := "SelfSupervised";
     Task.supervised := "Supervised";
     Task.recommendation_system := "RecommendationSystem" |}.

(** A trainer of [jai/task/trainer.py] whose parameters have been set. *)
Definition ready_trainer : Task.Trainer :=
  {| Task.name := "db"; Task.environment := "default"; Task.env_var := "JAI_AUTH";
     Task.verbose := 1; Task.safe_mode := false;
     Task._setup_params :=
       Some {| Task.db_type_param := "Text"; Task.pretrained_bases := [];
               Task.features := [] |};
     Task._insert_params := {| Task.batch_size := 2; Task.max_insert_workers := None |} |}.
End TaskLifecycleVocabulary.

(** ** Concrete sessions and worlds, for the examples *)

Definition demo_record (status description : string) (current total : Z) : Remote.StatusRec :=
  {| Remote.Task := "Training"; Remote.Status := status;
     Remote.Description := description;
     Remote.CurrentStep := current; Remote.TotalSteps := total |}.

(** A fetch that answers with the record of the collection ["db"] alone. *)
Definition serve (r : Remote.StatusRec) : incoming (gmap string Remote.StatusRec) :=
  Answer {[ "db" := r ]}.

Definition demo_world (dbs : gmap string Remote.DbInfo)
    (feed : list (incoming (gmap string Remote.StatusRec))) : Remote.World :=
  {| Remote.databases := dbs; Remote.status_feed := feed;
     Remote.answers := fun _ => "ok"; Remote.id_lists := fun _ => [];
     Remote.trace := [] |}.

(** The environment holding the collection ["db"]. *)
Definition with_db : gmap string Remote.DbInfo := {[ "db" := {| Remote.dtype := "Text" |} ]}.

(** The environment holding another collection and not ["db"]. *)
Definition with_other : gmap string Remote.DbInfo :=
  {[ "other" := {| Remote.dtype := "Text" |} ]}.

(** Three rows to upload. *)
Definition demo_rows : Remote.Frame := [JNum 1; JNum 2; JNum 3].

Definition demo_trainer : Task.Trainer :=
  Task.__init__ "db" "default" "JAI_AUTH" 1 false.

Definition demo_setup_trainer (cached : option string) : Setup.Trainer :=
  {| Setup.name := "db"; Setup.safe_mode := false; Setup.verbose := 1;
     Setup._type := cached; Setup._setup_params := Some "Text";
     Setup._insert_params :=
       Some {| Setup.batch_size := 16384; Setup.filter_name := None;
               Setup.overwrite_ := true; Setup.max_insert_workers := None |};
     Setup._user_ := "user" |}.

(** Helpers that accept every frame as it is. *)
Definition demo_externals : Task.Externals :=
  {| Task.check_dtype_and_clean := fun df _ => Ret df;
     Task.check_filters := fun _ _ => false;
     Task.has_column := fun _ _ => false;
     Task.frame_columns := fun _ => [];
     Task.flat_ids := fun _ _ => Ret [];
     Task.frame_ids := fun _ => [];
     Task.all_isin := fun _ _ => true;
     Task.print_args := fun _ => [];
     Task.report_keys := fun _ => [];
     Task.selfsupervised := "SelfSupervised";
     Task.supervised := "Supervised";
     Task.recommendation_system := "RecommendationSystem" |}.


Definition running : Remote.StatusRec := demo_record "Running" "Training" 1 4.
Definition succeeded : Remote.StatusRec := demo_record "Task ended successfully." "done" 4 4.

Definition demo_client : Core.jAI := Core.__init__ "key" None.


Definition core_world (wire : list (incoming Core.Response)) (entropy : list ascii)
  : Core.Net :=
  {| Core.wire := wire; Core.entropy := entropy; Core.done := [] |}.


Definition reply (code : Z) (body : Json) : incoming Core.Response :=
  Answer {| Core.status_code := code; Core.body := body |}.

(* ===================================================================== *)
(** * Properties                                                          *)
(* ===================================================================== *)

(** ** The HTTP binding layer ([Core]) *)

Section CoreFacts.
Import Core.
Variable self : jAI.

Lemma error_path (response : Response) (rest : list (incoming Response))
    (ent : list ascii) (log : list Effect) :
  assert_status_code response
    {| wire := rest; entropy := ent; done := log |}
  = (Ret (Raw response),
     {| wire := rest; entropy := ent; done := log ++ [Printed (body response)] |}).
Proof. reflexivity. Qed.


End CoreFacts.

Section CorePolling.
Import Core.
Variable self : jAI.
Context (good : Effect -> Prop).








End CorePolling.

Section CoreWait.
Import Core.
Variable self : jAI.




End CoreWait.

(** ** A small program logic for the trainers' effects *)

Section Logic.
Import Remote.

Context (good : Effect -> Prop).

Lemma triple_ret {A} (P : Feed -> Prop) (a : A) (Q : A -> Feed -> Prop) :
  (forall f, P f -> Q a f) -> triple good P (ret a) Q.
Proof.
  intros H w HP. simpl. split; [| split; [| split]]; auto.
  - exists []. rewrite app_nil_r. auto.
  - intros a' [= <-]. auto.
Qed.

Lemma triple_raise {A} (P : Feed -> Prop) (e : exn) (Q : A -> Feed -> Prop) :
  triple good P (raise e) Q.
Proof.
  intros w HP. simpl. split; [| split; [| split]]; auto.
  - exists []. rewrite app_nil_r. auto.
  - intros a' [=].
Qed.

Lemma triple_lift {A} (P : Feed -> Prop) (o : outcome A) (Q : A -> Feed -> Prop) :
  (forall a f, o = Ret a -> P f -> Q a f) -> triple good P (lift o) Q.
Proof.
  intros H w HP. simpl. split; [| split; [| split]]; auto.
  exists []. rewrite app_nil_r. auto.
Qed.

Lemma triple_bind {A B} (P : Feed -> Prop) (m : M World A) (Q : A -> Feed -> Prop)
    (k : A -> M World B) (R : B -> Feed -> Prop) :
  triple good P m Q -> (forall a, triple good (Q a) (k a) R) ->
  triple good P (bind m k) R.
Proof.
  intros Hm Hk w HP. destruct (Hm w HP) as ([t [Ht Hg]] & Ha & Hd & HQ).
  unfold bind. destruct (m w) as [[a | e | |] w1]; simpl in *;
    try (split; [| split; [| split]]; eauto; intros ? [=]).
  destruct (Hk a w1 (HQ a eq_refl)) as ([t' [Ht' Hg']] & Ha' & Hd' & HR).
  split; [| split; [| split]]; try congruence; auto.
  exists (t ++ t'). rewrite Ht', Ht, app_assoc. split; auto.
  apply Forall_app; auto.
Qed.

Lemma triple_weaken {A} (P P' : Feed -> Prop) (m : M World A) (Q Q' : A -> Feed -> Prop) :
  triple good P m Q -> (forall f, P' f -> P f) -> (forall a f, Q a f -> Q' a f) ->
  triple good P' m Q'.
Proof.
  intros Hm HP HQ w Hw. destruct (Hm w (HP _ Hw)) as (Ht & Ha & Hd & Hq).
  split; [| split; [| split]]; auto.
Qed.

Lemma triple_emit (P : Feed -> Prop) (e : Effect) (Q : unit -> Feed -> Prop) :
  good e -> (forall f, P f -> Q tt f) -> triple good P (emit e) Q.
Proof.
  intros He H w HP. simpl. split; [| split; [| split]]; auto.
  - exists [e]. auto.
  - intros [] _. auto.
Qed.

Lemma triple_sleep (P : Feed -> Prop) (seconds : Z) (Q : unit -> Feed -> Prop) :
  good (Slept seconds) -> (forall f, P f -> Q tt f) -> triple good P (sleep seconds) Q.
Proof.
  intros He H. unfold sleep. destruct (seconds <? 0).
  - apply triple_raise.
  - apply triple_emit; auto.
Qed.


Lemma triple_fetch (P : Feed -> Prop) (Q : gmap string StatusRec -> Feed -> Prop) :
  good (Called GetStatus) -> (forall d rest, P (Answer d :: rest) -> Q d rest) ->
  triple good P _status Q.
Proof.
  intros He H w HP. unfold _status, bind. simpl.
  destruct (status_feed w) as [| [d | e] rest] eqn:Hf; simpl;
    (split; [| split; [| split]]; auto; [ exists [Called GetStatus]; auto | ]).
  - intros a [=].
  - intros a [= <-]. auto.
  - intros a [=].
Qed.

End Logic.

(** ** The polling loop of [jai/task/trainer.py] *)

Section Quiet.
Import Remote.
Context (good : Effect -> Prop).

Lemma quiet_bind {A B} (m : M World A) (k : A -> M World B) :
  quiet good m -> (forall a, quiet good (k a)) -> quiet good (bind m k).
Proof. intros Hm Hk. eapply triple_bind; [exact Hm | exact Hk]. Qed.

Lemma quiet_ret {A} (a : A) : quiet good (ret a).
Proof. apply triple_ret. auto. Qed.

Lemma quiet_raise {A} (e : exn) : quiet good (raise e : M World A).
Proof. apply triple_raise. Qed.

Lemma quiet_lift {A} (o : outcome A) : quiet good (lift o : M World A).
Proof. apply triple_lift. auto. Qed.

Lemma quiet_emit (e : Effect) : good e -> quiet good (emit e).
Proof. intros. apply triple_emit; auto. Qed.

Lemma quiet_sleep (seconds : Z) : good (Slept seconds) -> quiet good (sleep seconds).
Proof. intros. apply triple_sleep; auto. Qed.


Lemma quiet_check_response {A} (a : A) : quiet good (check_response a).
Proof. apply quiet_ret. Qed.

Lemma triple_with_bar {A} (P : Feed -> Prop) (Q : A -> Feed -> Prop)
    (bar : Bar) (total : Z) (body : M World A) :
  good (BarOpened bar total) -> good (BarClosed bar) ->
  triple good P body Q -> triple good P (with_bar bar total body) Q.
Proof.
  intros Ho Hc Hb w HP. unfold with_bar, bind. simpl.
  set (w1 := set_trace w (trace w ++ [BarOpened bar total])).
  destruct (Hb w1 HP) as ([t [Ht Hg]] & Ha & Hd & HQ).
  destruct (body w1) as [[a | e | |] w2]; simpl in *;
    (split; [| split; [| split]]; auto;
     [ first [ exists ((BarOpened bar total :: t) ++ [BarClosed bar]);
               rewrite Ht; simpl; rewrite <- !app_assoc; simpl; split;
               [ reflexivity
               | constructor; [auto | apply Forall_app; split; auto] ]
             | exists (BarOpened bar total :: t);
               rewrite Ht; rewrite <- !app_assoc; simpl; split; auto ] ]).
Qed.

Lemma quiet_with_bar {A} (bar : Bar) (total : Z) (body : M World A) :
  good (BarOpened bar total) -> good (BarClosed bar) ->
  quiet good body -> quiet good (with_bar bar total body).
Proof. apply triple_with_bar. Qed.


Lemma quiet_task_status (self : Task.Trainer) :
  good (Called GetStatus) -> quiet good (Task.status self).
Proof.
  intros Hg. unfold Task.status. apply quiet_bind.
  - apply triple_fetch; auto.
  - intros d. destruct (d !! Task.name self).
    + destruct (Task.safe_mode self); apply quiet_ret.
    + apply quiet_raise.
Qed.

End Quiet.


Ltac quiet_step :=
  lazymatch goal with
  | |- quiet _ (bind _ _) => apply quiet_bind; [| intros ?]
  | |- quiet _ (ret _) => apply quiet_ret
  | |- quiet _ (raise _) => apply quiet_raise
  | |- quiet _ (lift _) => apply quiet_lift
  | |- quiet _ (Remote.emit _) => apply quiet_emit
  | |- quiet _ (Remote.sleep _) => apply quiet_sleep
  | |- quiet _ (Remote.check_response _) => apply quiet_check_response
  | |- quiet _ (Task.status _) => apply quiet_task_status
  | |- quiet _ (Remote.with_bar _ _ _) => apply quiet_with_bar
  | |- quiet _ (if ?b then _ else _) => destruct b eqn:?
  | |- quiet _ (match ?x with _ => _ end) => destruct x eqn:?
  end.

Section TaskPolling.
Import Remote.
Variable self : Task.Trainer.

Lemma iteration_loop_effects (fuel : nat) (fs : Z) :
  forall iteration n sleep_time s,
    quiet iteration_effect (Task.iteration_loop self fuel fs iteration n sleep_time s).
Proof.
  induction fuel as [| fuel IH]; intros; simpl.
  - apply quiet_lift.
  - repeat quiet_step; simpl; auto; try apply IH.
    apply Z.ltb_lt. assumption.
Qed.





Lemma status_delivers (w : World) (r : StatusRec) (ev : incoming (gmap string StatusRec))
    (rest : Feed) :
  tells (Task.name self) r ev -> status_feed w = ev :: rest ->
  Task.status self w
  = (Ret r, set_feed (set_trace w (trace w ++ [Called GetStatus])) rest).
Proof.
  intros (d & -> & Hd) Hf. unfold Task.status, _status, bind, emit. simpl.
  rewrite Hf, Hd. destruct (Task.safe_mode self); reflexivity.
Qed.






End TaskPolling.




Section TaskSuccess.
Import Remote.
Variable self : Task.Trainer.



End TaskSuccess.




(** ** The loop bound of the polling model is never the reason to stop *)

Section Refinement.
Import Remote.


Lemma refines_trans {A} (m1 m2 m3 : M World A) :
  refines m1 m2 -> refines m2 m3 -> refines m1 m3.
Proof.
  intros H12 H23 w. destruct (H12 w) as [H | H]; [left; exact H |].
  destruct (H23 w) as [H' | H'].
  - left. rewrite H. exact H'.
  - right. congruence.
Qed.




End Refinement.


Section TaskFuel.
Import Remote.
Variable self : Task.Trainer.




End TaskFuel.

(** ** A fetch that throws ends the [try] block where it stands *)

Section Interruptible.
Import Remote.

Lemma push_set_trace (w : World) (t : list Effect) (tail : Feed) :
  push (set_trace w t) tail = set_trace (push w tail) t.
Proof. reflexivity. Qed.











End Interruptible.


Section TaskInterrupt.
Import Remote.
Variable self : Task.Trainer.




End TaskInterrupt.

Section TaskCancel.
Import Remote.
Variable self : Task.Trainer.



Lemma wait_setup_after_fetch (fs : Z) (s : StatusRec) (ev : incoming (gmap string StatusRec))
    (feed : Feed) (w : World) :
  tells (Task.name self) s ev -> status_feed w = ev :: feed ->
  Task.wait_setup self fs w
  = after_first_fetch self fs s (length feed)
      (set_feed (set_trace w (trace w ++ [Called GetStatus])) feed).
Proof.
  intros Ht Hf. unfold Task.wait_setup, bind at 1.
  rewrite (status_delivers self w s ev feed Ht Hf). reflexivity.
Qed.


End TaskCancel.

(** ** Cancelling in [jai/setup/trainer.py] *)

Section CancelShape.
Import Remote.







End CancelShape.

Section SetupCancel.
Import Remote.
Variable self : Setup.Trainer.









End SetupCancel.




(** ** The step bar under a service whose [CurrentStep] never decreases *)

Section TaskProgress.
Import Remote.
Variable self : Task.Trainer.

Lemma triple_pure_pre {A} (good : Effect -> Prop) (fact : Prop) (P : Feed -> Prop)
    (m : M World A) (Q : A -> Feed -> Prop) :
  (fact -> triple good P m Q) -> triple good (fun f => fact /\ P f) m Q.
Proof. intros H w [Hfact HP]. apply H; assumption. Qed.

Lemma triple_pure {A} (good : Effect -> Prop) (fact : Prop)
    (m : M World A) (Q : A -> Feed -> Prop) :
  (fact -> triple good (fun _ => True) m Q) -> triple good (fun _ => fact) m Q.
Proof. intros H w Hfact. apply H; [assumption | exact I]. Qed.

Lemma status_steady (lo hi : Z) :
  triple step_bar_advances (steady (Task.name self) lo hi) (Task.status self)
    (fun r f => lo <= CurrentStep r <= hi /\ steady (Task.name self) (CurrentStep r) hi f).
Proof.
  unfold Task.status.
  eapply triple_bind
    with (Q := fun d rest => steady (Task.name self) lo hi (Answer d :: rest)).
  - apply triple_fetch; [exact I | auto].
  - intros d. destruct (d !! Task.name self) as [r |] eqn:Hd.
    + assert (Hret : triple step_bar_advances
                (fun rest => steady (Task.name self) lo hi (Answer d :: rest))
                (ret r : M World StatusRec)
                (fun r f => lo <= CurrentStep r <= hi
                            /\ steady (Task.name self) (CurrentStep r) hi f)).
      { apply triple_ret. intros f Hf. simpl in Hf. rewrite Hd in Hf. exact Hf. }
      destruct (Task.safe_mode self); exact Hret.
    + apply triple_raise.
Qed.

Lemma iteration_loop_steady (hi : Z) (fuel : nat) (fs : Z) :
  forall iteration n sleep_time s,
    CurrentStep s <= hi ->
    triple step_bar_advances (steady (Task.name self) (CurrentStep s) hi)
      (Task.iteration_loop self fuel fs iteration n sleep_time s)
      (fun r f => CurrentStep s <= CurrentStep (snd r) <= hi
                  /\ steady (Task.name self) (CurrentStep (snd r)) hi f).
Proof.
  induction fuel as [| fuel IH]; intros iteration n sleep_time s Hs; simpl.
  - apply triple_lift. intros ? ? [=].
  - destruct iteration.
    + eapply triple_bind with (Q := fun _ f => steady (Task.name self) (CurrentStep s) hi f).
      { apply triple_lift. auto. }
      intros [[iteration curr_step] max_iterations].
      eapply triple_bind with (Q := fun _ f => steady (Task.name self) (CurrentStep s) hi f).
      { destruct (0 <? curr_step - n).
        - eapply triple_bind with (Q := fun _ f => steady (Task.name self) (CurrentStep s) hi f).
          + apply triple_emit; [exact I | auto].
          + intros _. apply triple_ret. auto.
        - apply triple_ret. auto. }
      intros [n' sleep_time'].
      eapply triple_bind with (Q := fun _ f => steady (Task.name self) (CurrentStep s) hi f).
      { apply triple_sleep; [exact I | auto]. }
      intros _.
      eapply triple_bind; [apply status_steady |].
      intros s'. apply triple_pure_pre. intros [Hlo Hhi].
      eapply triple_weaken; [apply (IH iteration n' sleep_time' s' Hhi) | auto |].
      intros r f [[H1 H2] H3]. split; [lia | exact H3].
    + apply triple_ret. intros f Hf. simpl. split; [lia | exact Hf].
Qed.

Lemma polling_loop_steady (hi : Z) (fuel : nat) (fs : Z) :
  forall v s,
    Task.current v <= Task.step v -> Task.step v <= CurrentStep s -> CurrentStep s <= hi ->
    (Task.is_init v = true -> 0 <= Task.current v) ->
    triple step_bar_advances (steady (Task.name self) (CurrentStep s) hi)
      (Task.polling_loop self fuel fs v s)
      (fun r _ => Task.current (fst r) <= hi).
Proof.
  induction fuel as [| fuel IH]; intros v s Hcs Hss Hsh Hinit; simpl.
  - apply triple_lift. intros ? ? [=].
  - destruct (negb (Status s =? Task.end_message)%string).
    2:{ apply triple_ret. intros f _. simpl. lia. }
    destruct (Status s =? Task.error_message)%string; [apply triple_raise |].
    eapply triple_bind with (Q := fun _ f => steady (Task.name self) (CurrentStep s) hi f).
    { apply triple_lift. auto. }
    intros [[iteration c] max_iterations].
    eapply triple_bind
      with (Q := fun r f => CurrentStep s <= CurrentStep (snd r) <= hi
                            /\ steady (Task.name self) (CurrentStep (snd r)) hi f).
    { destruct iteration.
      - apply triple_with_bar; [exact I | exact I |].
        eapply triple_bind; [apply iteration_loop_steady; assumption |].
        intros [[n st] s']. simpl.
        eapply triple_bind
          with (Q := fun _ f => CurrentStep s <= CurrentStep s' <= hi
                                /\ steady (Task.name self) (CurrentStep s') hi f).
        + apply triple_emit; [exact I | auto].
        + intros _. apply triple_ret. auto.
      - apply triple_ret. intros f Hf. simpl. split; [lia | exact Hf]. }
    intros [sleep_time s']. simpl. apply triple_pure_pre. intros [Hlo Hhi].
    eapply triple_bind
      with (Q := fun c f => c <= Task.step v /\ steady (Task.name self) (CurrentStep s') hi f).
    { destruct ((Task.step v =? Task.current v) && Task.is_init v) eqn:Hb.
      - apply andb_true_iff in Hb as [_ Hb].
        eapply triple_bind
          with (Q := fun _ f => steady (Task.name self) (CurrentStep s') hi f).
        + apply triple_emit; [simpl; auto | auto].
        + intros _. apply triple_ret. intros f Hf. split; [lia | exact Hf].
      - eapply triple_bind
          with (Q := fun _ f => steady (Task.name self) (CurrentStep s') hi f).
        + apply triple_emit; [simpl; lia | auto].
        + intros _. apply triple_ret. intros f Hf. split; [lia | exact Hf]. }
    intros c'. apply triple_pure_pre. intros Hc.
    eapply triple_bind with (Q := fun _ f => steady (Task.name self) (CurrentStep s') hi f).
    { apply triple_sleep; [exact I | auto]. }
    intros _.
    eapply triple_bind; [apply status_steady |].
    intros s''. apply triple_pure_pre. intros [H1 H2].
    apply IH; simpl; try lia; try discriminate.
Qed.

Lemma polling_steady (fuel : nat) (fs : Z) (s : StatusRec) :
  0 <= CurrentStep s <= TotalSteps s ->
  triple step_bar_advances (steady (Task.name self) (CurrentStep s) (TotalSteps s))
    (Task.polling self fuel fs s) (fun _ _ => True).
Proof.
  intros [H0 Hmax]. unfold Task.polling.
  apply triple_with_bar; [exact I | exact I |].
  eapply triple_bind.
  - apply polling_loop_steady; simpl; try lia; auto.
  - intros [v s']. simpl. apply triple_pure. intros Hv.
    eapply triple_bind with (Q := fun _ _ => True).
    + destruct (negb (Task.current v =? TotalSteps s) && negb (Task.is_init v)).
      * apply triple_emit; [simpl; lia | auto].
      * destruct (negb (Task.current v =? TotalSteps s) && Task.is_init v).
        -- apply triple_emit; [simpl; lia | auto].
        -- apply triple_ret. auto.
    + intros _. apply triple_ret. auto.
Qed.

(** Under such a service no run of [wait_setup] moves the step bar
    backwards. *)
Lemma wait_setup_steady (fs : Z) (w : World) :
  progresses (Task.name self) (status_feed w) ->
  exists t,
    trace (snd (Task.wait_setup self fs w)) = trace w ++ t
    /\ Forall step_bar_advances t.
Proof.
  intros Hprog.
  assert (Hstop : forall out w', Task.status self w = (out, w') ->
                    (forall s, out <> Ret s) ->
                    trace w' = trace w ++ [Called GetStatus] ->
                    exists t, trace (snd (Task.wait_setup self fs w)) = trace w ++ t
                              /\ Forall step_bar_advances t).
  { intros out w' Hst Hout Htr. exists [Called GetStatus]. split; [| repeat constructor].
    unfold Task.wait_setup, bind at 1. rewrite Hst.
    destruct out as [s | | |]; try exact Htr. destruct (Hout s eq_refl). }
  destruct (status_feed w) as [| [d | e] feed] eqn:Hfeed;
    [ eapply Hstop;
      [ unfold Task.status, _status, bind, emit; simpl; rewrite Hfeed; reflexivity
      | intros ? [=] | reflexivity ]
    |
    | eapply Hstop;
      [ unfold Task.status, _status, bind, emit; simpl; rewrite Hfeed; reflexivity
      | intros ? [=] | reflexivity ] ].
  simpl in Hprog. destruct (d !! Task.name self) as [s |] eqn:Hd.
  - destruct Hprog as [Hs Hst].
    assert (Ht : tells (Task.name self) s (Answer d)) by (exists d; auto).
    rewrite (wait_setup_after_fetch self fs s (Answer d) feed w Ht Hfeed).
    set (w1 := set_feed _ feed).
    destruct (polling_steady (2 + length feed) fs s Hs w1 Hst) as ([t [Htr Hg]] & Ha & _ & _).
    unfold after_first_fetch, bind at 1, try_except.
    destruct (Task.polling self (2 + length feed) fs s w1) as [[s' | e | |] w2];
      simpl in Htr, Ha.
    + unfold _delete_status, call, bind, emit. simpl.
      exists (Called GetStatus :: t ++ [Called (DeleteStatus (Task.name self))]).
      split.
      * destruct (Task.safe_mode self); simpl; rewrite Htr; unfold w1; simpl;
          rewrite <- ?app_assoc; reflexivity.
      * constructor; [exact I |]. apply Forall_app. split; [exact Hg | repeat constructor].
    + destruct e; simpl;
        try (exists (Called GetStatus :: t); split;
             [ rewrite Htr; unfold w1; simpl; rewrite <- ?app_assoc; reflexivity
             | constructor; [exact I | exact Hg] ]).
      unfold print, _cancel_setup, call, bind, emit. simpl.
      exists (Called GetStatus :: t ++ [Printed interruption_caught;
                                         Called (CancelSetup (Task.name self))]).
      split.
      * destruct (Task.safe_mode self); simpl; rewrite Htr; unfold w1; simpl;
          rewrite <- ?app_assoc; reflexivity.
      * constructor; [exact I |]. apply Forall_app. split; [exact Hg | repeat constructor].
    + exists (Called GetStatus :: t). split.
      * simpl. rewrite Htr. unfold w1. simpl. rewrite <- ?app_assoc. reflexivity.
      * constructor; [exact I | exact Hg].
    + exists (Called GetStatus :: t). split.
      * simpl. rewrite Htr. unfold w1. simpl. rewrite <- ?app_assoc. reflexivity.
      * constructor; [exact I | exact Hg].
  - eapply Hstop;
      [ unfold Task.status, _status, bind, emit; simpl; rewrite Hfeed; simpl;
        rewrite Hd; reflexivity
      | intros ? [=] | reflexivity ].
Qed.

End TaskProgress.

(** C8 (amended).  Inside the iteration loop of [wait_setup] the
    iteration bar only receives updates greater than zero, whatever the
    service reports: the update is guarded by [step_update > 0].  The
    step bar has no such guard; it receives no negative update when the
    [CurrentStep] values the service reports for the session never
    decrease and stay between 0 and the first record's [TotalSteps]. *)
Theorem C8_bars_advance :
  (forall self fuel fs iteration n sleep_time s w,
     exists t,
       Remote.trace (snd (Task.iteration_loop self fuel fs iteration n sleep_time s w))
       = Remote.trace w ++ t
       /\ Forall iteration_effect t)
  /\ (forall self fs w,
        progresses (Task.name self) (Remote.status_feed w) ->
        exists t,
          Remote.trace (snd (Task.wait_setup self fs w)) = Remote.trace w ++ t
          /\ Forall step_bar_advances t).
Proof.
  split.
  - intros self fuel fs iteration n sleep_time s w.
    destruct (iteration_loop_effects self fuel fs iteration n sleep_time s w I) as [Ht _].
    exact Ht.
  - intros self fs w. apply wait_setup_steady.
Qed.

(** Witness of C8: the step goes 1, 2, 4 out of 4. *)
Lemma C8_witness :
  let w := demo_world with_db
             [serve running; serve (demo_record "Running" "Training" 2 4); serve succeeded] in
  progresses "db" (Remote.status_feed w)
  /\ exists t,
       Remote.trace (snd (Task.wait_setup demo_trainer 1 w)) = Remote.trace w ++ t
       /\ Forall step_bar_advances t.
Proof.
  intros w.
  assert (Hp : progresses "db" (Remote.status_feed w)).
  { vm_compute. repeat split; discriminate. }
  split; [exact Hp |].
  destruct C8_bars_advance as [_ Hstep].
  exact (Hstep demo_trainer 1 w Hp).
Defined.

(** C8 fails as stated.  The service reports [CurrentStep] 3, then 5,
    then 2: the step bar is moved by [2 - 5].  And the iteration bar,
    opened with the total of the first fragment, is filled up by
    [2 - 5] when a later fragment has counted further than that total. *)
Lemma C8_counterexample :
  In (Remote.BarUpdate Remote.StepBar (-3))
     (Remote.trace (snd (Task.wait_setup demo_trainer 1
        (demo_world with_db
           [serve (demo_record "Running" "Training" 3 9);
            serve (demo_record "Running" "Training" 5 9);
            serve (demo_record "Running" "Training" 2 9);
            serve (demo_record "Running" "Training" 2 9);
            serve (demo_record "Task ended successfully." "done" 9 9)]))))
  /\ In (Remote.BarUpdate Remote.IterationBar (-3))
        (Remote.trace (snd (Task.wait_setup demo_trainer 1
           (demo_world with_db
              [serve (demo_record "Running" "Iteration: 1 / 2" 1 9);
               serve (demo_record "Running" "Iteration: 5 / 10" 1 9);
               serve (demo_record "Running" "Training" 1 9);
               serve (demo_record "Task ended successfully." "done" 9 9)])))).
Proof. vm_compute. split; tauto. Qed.

(** ** The uniform error path and the success codes of the core client *)




(** ** The guards of [fit], [setup] and [append] *)

Section TaskLifecycle.
Import Remote.
Variable ext : Task.Externals.
Variable self : Task.Trainer.

Lemma is_valid_present (w : World) (d : DbInfo) :
  databases w !! Task.name self = Some d ->
  Task.is_valid self w = (Ret true, set_trace w (trace w ++ [Called (IsValid (Task.name self))])).
Proof.
  intros Hd. unfold Task.is_valid, _is_valid, bind, emit. cbn.
  rewrite bool_decide_true; [reflexivity |]. rewrite Hd. eauto.
Qed.

Lemma is_valid_absent (w : World) :
  databases w !! Task.name self = None ->
  Task.is_valid self w = (Ret false, set_trace w (trace w ++ [Called (IsValid (Task.name self))])).
Proof.
  intros Hd. unfold Task.is_valid, _is_valid, bind, emit. cbn.
  rewrite bool_decide_false; [reflexivity |]. rewrite Hd. intros [x Hx]. discriminate.
Qed.

(** [fit] on a name that exists, without [overwrite]: the check of the
    name is all that happens before the [KeyError]. *)
Lemma fit_refuses_existing (data : Task.Data) (fs : Z) (w : World) (d : DbInfo) :
  databases w !! Task.name self = Some d ->
  exists msg,
    Task.fit ext self data false fs w
    = (Raise (KeyError msg), set_trace w (trace w ++ [Called (IsValid (Task.name self))])).
Proof.
  intros Hd. eexists. unfold Task.fit, bind at 1.
  rewrite (is_valid_present w d Hd). unfold bind. simpl. reflexivity.
Qed.

(** [append] on a name that does not exist. *)
Lemma append_refuses_absent (data : Frame) (fs : Z) (w : World) :
  databases w !! Task.name self = None ->
  exists msg,
    Task.append ext self data fs w
    = (Raise (KeyError msg), set_trace w (trace w ++ [Called (IsValid (Task.name self))])).
Proof.
  intros Hd. eexists. unfold Task.append, bind at 1.
  rewrite (is_valid_absent w Hd). simpl. reflexivity.
Qed.

Lemma insert_batches_trace (name : string) (predict : bool) (bs : list Frame) :
  forall w,
    insert_batches name predict bs w
    = (Ret (map (fun b => answers w (InsertBatch name b predict)) bs),
       set_trace w (trace w ++ map (fun b => Called (InsertBatch name b predict)) bs)).
Proof.
  induction bs as [| b bs IH]; intros w; simpl.
  - destruct w. unfold set_trace. simpl. rewrite app_nil_r. reflexivity.
  - unfold bind, call, emit. simpl.
    change (insert_batches name predict bs ?w) with (insert_batches name predict bs w).
    rewrite IH. simpl. unfold set_trace. simpl. rewrite <- app_assoc. reflexivity.
Qed.

(** [append] on a name that exists, not waiting for the training: the
    raw data is deleted, every batch is uploaded, and one call starts
    the incremental training, after the uploads. *)
Lemma append_uploads_then_trains (data df : Frame) (fs : Z) (w : World) (d : DbInfo) :
  databases w !! Task.name self = Some d ->
  Task.check_dtype_and_clean ext data (Some (dtype d)) = Ret df ->
  0 < Task.batch_size (Task.insert_params self) ->
  fs < 1 ->
  let name := Task.name self in
  let bs := batches (length df) (Z.to_nat (Task.batch_size (Task.insert_params self))) df in
  exists w',
    Task.append ext self data fs w
    = (Ret (map (fun b => answers w (InsertBatch name b true)) bs, answers w (AppendData name)), w')
    /\ trace w'
       = trace w
         ++ [Called (IsValid name); Called (DeleteRawData name);
             Called (IsValid name); Called (Describe name);
             Called (DeleteRawData name);
             Called (IsValid name); Called (Describe name); Called (Describe name)]
         ++ map (fun b => Called (InsertBatch name b true)) bs
         ++ [Called (AppendData name)].
Proof.
  intros Hd Hclean Hbs Hfs name bs.
  assert (Hz : (Task.batch_size (Task.insert_params self) =? 0) = false) by (apply Z.eqb_neq; lia).
  assert (Hn : (Task.batch_size (Task.insert_params self) <? 0) = false) by (apply Z.ltb_ge; lia).
  assert (Hf : (1 <=? fs) = false) by (apply Z.leb_gt; lia).
  eexists. unfold Task.append, bind at 1.
  rewrite (is_valid_present w d Hd). simpl.
  unfold Task.delete_raw_data, Task.db_type, Task.describe, Task.is_valid, _is_valid,
    _describe, _delete_raw_data, _append, _insert_data, check_response, call, bind, emit, lift.
  destruct (Task.safe_mode self);
    repeat (cbn -[batches insert_batches Z.eqb Z.ltb Z.leb];
            rewrite ?Hd, ?Hclean, ?Hz, ?Hn, ?Hf, ?insert_batches_trace;
            try rewrite bool_decide_true by eauto);
    (split; [reflexivity |]); cbn; rewrite <- ?app_assoc; reflexivity.
Qed.

End TaskLifecycle.

Section SetupLifecycle.
Import Remote.

Lemma lookup_item_elem {A} (key : string) (items : list (string * A)) :
  NoDup (map fst items) ->
  forall v, lookup_item key items = Some v <-> In (key, v) items.
Proof.
  induction items as [| [k x] items IH]; intros Hnd v; simpl.
  - split; [discriminate | tauto].
  - apply NoDup_cons in Hnd as [Hk Hnd]. simpl in Hk.
    destruct (String.eqb_spec k key) as [-> | Hne].
    + split.
      * intros [= ->]. left. reflexivity.
      * intros [[= ->] | Hin]; [reflexivity |].
        exfalso. apply Hk. apply list_elem_of_In.
        apply (in_map fst) in Hin. exact Hin.
    + rewrite (IH Hnd v). split; [tauto |].
      intros [[= -> _] | Hin]; [contradiction | exact Hin].
Qed.

(** The listing of [/info] holds a name exactly when the environment
    holds the collection. *)
Lemma lookup_item_listing (dbs : gmap string DbInfo) (key : string) :
  lookup_item key (map (fun kv => (fst kv, dtype (snd kv))) (map_to_list dbs))
  = option_map dtype (dbs !! key).
Proof.
  set (items := map _ _).
  assert (Hnd : NoDup (map fst items)).
  { unfold items. rewrite map_map. simpl. apply NoDup_fst_map_to_list. }
  destruct (dbs !! key) as [d |] eqn:Hd; simpl.
  - apply (lookup_item_elem key items Hnd). unfold items.
    apply in_map_iff. exists (key, d). split; [reflexivity |].
    apply list_elem_of_In. apply elem_of_map_to_list. exact Hd.
  - destruct (lookup_item key items) as [t |] eqn:Ht; [| reflexivity].
    apply (lookup_item_elem key items Hnd) in Ht. unfold items in Ht.
    apply in_map_iff in Ht as ([k d] & [= -> _] & Hin).
    apply list_elem_of_In, elem_of_map_to_list in Hin. congruence.
Qed.

(** [exists] of [jai/setup/trainer.py] answers [False] for a name the
    environment holds. *)
Lemma exists_of_present (self : Setup.Trainer) (w : World) (d : DbInfo) :
  databases w !! Setup.name self = Some d ->
  Setup.exists_ (self, w)
  = (Ret false,
     (Setup.set_type self (Some (dtype d)), set_trace w (trace w ++ [Called Info]))).
Proof.
  intros Hd. unfold Setup.exists_, Setup.db_type, Setup.this, Setup.remote,
    Setup.assign_type, _info, check_response, bind, emit, ret. simpl.
  destruct (Setup.safe_mode self); simpl;
    rewrite lookup_item_listing, Hd;
    (destruct (map_to_list (databases w)) as [| kv rest] eqn:Hl;
     [ apply map_to_list_empty_iff in Hl; rewrite Hl in Hd; discriminate |]);
    reflexivity.
Qed.

(** It answers [True] for a name the environment does not hold, unless a
    type is still cached from an earlier look. *)
Lemma exists_of_absent (self : Setup.Trainer) (w : World) :
  databases w !! Setup.name self = None -> databases w <> ∅ ->
  Setup.exists_ (self, w)
  = (Ret (match Setup._type self with None => true | Some _ => false end),
     (self, set_trace w (trace w ++ [Called Info]))).
Proof.
  intros Hd Hne. unfold Setup.exists_, Setup.db_type, Setup.this, Setup.remote,
    Setup.assign_type, _info, check_response, bind, emit, ret. simpl.
  destruct (Setup.safe_mode self); simpl;
    rewrite lookup_item_listing, Hd;
    (destruct (map_to_list (databases w)) as [| kv rest] eqn:Hl;
     [ apply map_to_list_empty_iff in Hl; contradiction |]);
    destruct self; reflexivity.
Qed.

End SetupLifecycle.

(** C3, evaluated at the failing input.  [exists] of
    [jai/setup/trainer.py] is [self.db_type is None]: true when the name
    is absent.  So [setup] on the existing collection ["db"] raises no
    [KeyError] with [overwrite=False] and uploads the rows, issues no
    delete with [overwrite=True], and on an environment without ["db"]
    refuses with the message that the database already exists.  [fit]
    of [jai/task/trainer.py], which tests [is_valid], raises the
    [KeyError] after the check of the name and nothing else. *)
Theorem C3_setup_guard_is_inverted :
  let present := (demo_setup_trainer None, demo_world with_db []) in
  let absent := (demo_setup_trainer None, demo_world with_other []) in
  let uploads overwrite :=
    [Remote.Called Remote.Info; Remote.Called Remote.Info; Remote.Called Remote.Info;
     Remote.Called (Remote.InsertBatch "db" demo_rows false);
     Remote.Called (Remote.StartSetup "db" "Text" overwrite)] in
  Remote.trace (snd (snd (Setup.setup demo_externals demo_rows false 0 present)))
  = uploads false
  /\ Remote.trace (snd (snd (Setup.setup demo_externals demo_rows true 0 present)))
     = uploads true
  /\ (exists msg,
        Setup.setup demo_externals demo_rows false 0 absent
        = (Raise (KeyError msg),
           (demo_setup_trainer None,
            Remote.set_trace (demo_world with_other []) [Remote.Called Remote.Info]))
        /\ Py.contains "already exists" msg = true)
  /\ (exists msg,
        Task.fit demo_externals demo_trainer (Task.DataFrame demo_rows) false 0
          (demo_world with_db [])
        = (Raise (KeyError msg),
           Remote.set_trace (demo_world with_db []) [Remote.Called (Remote.IsValid "db")])).
Proof.
  cbv zeta. split; [vm_compute; reflexivity |]. split; [vm_compute; reflexivity |].
  split; eexists; [split |]; vm_compute; reflexivity.
Qed.

(** C4, evaluated at the failing input.  A session of
    [jai/setup/trainer.py] built while ["db"] existed keeps its type in
    [_type]; [db_type] hands the cached type back when the name is no
    longer listed, so [exists] answers [False].  [append] then raises no
    [KeyError] for the missing collection: it deletes the raw data,
    uploads the rows and starts the incremental training.  [append] of
    [jai/task/trainer.py] raises the [KeyError] in the same
    environment. *)
Theorem C4_append_trusts_cached_type :
  (exists self w,
     Setup.__init__ "db" 0 false (demo_world with_db []) = (Ret self, w)
     /\ Setup._type self = Some "Text")
  /\ (let end_ := Setup.append demo_externals demo_rows 0
                    (demo_setup_trainer (Some "Text"), demo_world with_other []) in
      fst end_ = Ret (["ok"], "ok")
      /\ Remote.trace (snd (snd end_))
         = [Remote.Called Remote.Info; Remote.Called (Remote.DeleteRawData "db");
            Remote.Called Remote.Info; Remote.Called Remote.Info;
            Remote.Called (Remote.InsertBatch "db" demo_rows true);
            Remote.Called (Remote.AppendData "db")])
  /\ (exists msg,
        Task.append demo_externals demo_trainer demo_rows 0 (demo_world with_other [])
        = (Raise (KeyError msg),
           Remote.set_trace (demo_world with_other []) [Remote.Called (Remote.IsValid "db")])).
Proof.
  split; [| split].
  - eexists. eexists. split; vm_compute; reflexivity.
  - vm_compute. split; reflexivity.
  - eexists. vm_compute. reflexivity.
Qed.

(** C9, evaluated at the failing input.  On a description holding the
    fragment, [get_numbers] nested in [wait_setup] of
    [jai/setup/trainer.py] returns the two numbers without the leading
    [True], and the unpacking into three names raises; [get_numbers] of
    [jai/task/trainer.py] returns the triple.  Without the fragment both
    return [(False, 0, 0)]. *)
Theorem C9_nested_get_numbers_returns_pair :
  let status := demo_record "Running" "Iteration: 3 / 10" 1 4 in
  Setup.get_numbers (Setup.Indexed status) = Ret (Setup.Pair 3 10)
  /\ (exists msg, Setup.unpack3 (Setup.Pair 3 10) = Raise (ValueError msg))
  /\ Task.get_numbers status = Ret (true, 3, 10)
  /\ Setup.get_numbers (Setup.Indexed running) = Ret (Setup.Triple false 0 0)
  /\ Task.get_numbers running = Ret (false, 0, 0).
Proof.
  cbv zeta. split; [vm_compute; reflexivity |]. split; [eexists; reflexivity |].
  repeat split; vm_compute; reflexivity.
Qed.

(** ** [generate_name] *)

Section PyFacts.

Lemma string_append_cons (c : ascii) (a b : string) :
  String c a +:+ b = String c (a +:+ b).
Proof. reflexivity. Qed.

Lemma string_append_nil (b : string) : EmptyString +:+ b = b.
Proof. reflexivity. Qed.





Lemma list_of_string_append (a b : string) :
  list_ascii_of_string (a +:+ b) = list_ascii_of_string a ++ list_ascii_of_string b.
Proof. induction a as [| c a IH];
    rewrite ?string_append_nil, ?string_append_cons; cbn; [reflexivity | f_equal; exact IH]. Qed.

Lemma string_of_list_app (a b : list ascii) :
  string_of_list_ascii (a ++ b) = string_of_list_ascii a +:+ string_of_list_ascii b.
Proof.
  induction a as [| c a IH]; cbn; [reflexivity |].
  rewrite string_append_cons. f_equal. exact IH.
Qed.

Lemma startswith_append (p x : string) : Py.startswith p (p +:+ x) = true.
Proof.
  induction p as [| c p IH]; [reflexivity |].
  rewrite string_append_cons. simpl. rewrite Ascii.eqb_refl. exact IH.
Qed.

Lemma endswith_append (x s : string) : Py.endswith s (x +:+ s) = true.
Proof.
  unfold Py.endswith, Py.rev_string.
  rewrite list_of_string_append, rev_app_distr, string_of_list_app.
  apply startswith_append.
Qed.



End PyFacts.

Section CoreNames.
Import Core.
Variable self : jAI.








End CoreNames.





(** ** The loop bounds of the model are never reached *)

Section Fuel.
Import Remote.

Lemma fueled_ret {A} (P : Feed -> Prop) (a : A) (Q : A -> Feed -> Prop) :
  (forall f, P f -> Q a f) -> fueled P (ret a) Q.
Proof. intros H w HP. simpl. split; [discriminate | intros a' [= <-]; auto]. Qed.

Lemma fueled_raise {A} (P : Feed -> Prop) (e : exn) (Q : A -> Feed -> Prop) :
  fueled P (raise e) Q.
Proof. intros w HP. simpl. split; [discriminate | intros a' [=]]. Qed.

Lemma fueled_lift {A} (P : Feed -> Prop) (o : outcome A) (Q : A -> Feed -> Prop) :
  o <> OutOfFuel -> (forall a f, o = Ret a -> P f -> Q a f) -> fueled P (lift o) Q.
Proof. intros Ho H w HP. simpl. split; [exact Ho | intros a Ha; auto]. Qed.

Lemma fueled_bind {A B} (P : Feed -> Prop) (m : M World A) (Q : A -> Feed -> Prop)
    (k : A -> M World B) (R : B -> Feed -> Prop) :
  fueled P m Q -> (forall a, fueled (Q a) (k a) R) -> fueled P (bind m k) R.
Proof.
  intros Hm Hk w HP. destruct (Hm w HP) as [Hend HQ].
  unfold bind. destruct (m w) as [[a | e | |] w1]; simpl in *;
    try (split; [discriminate | intros ? [=]]).
  - apply Hk. apply HQ. reflexivity.
  - contradiction.
Qed.

Lemma fueled_weaken {A} (P P' : Feed -> Prop) (m : M World A) (Q Q' : A -> Feed -> Prop) :
  fueled P m Q -> (forall f, P' f -> P f) -> (forall a f, Q a f -> Q' a f) ->
  fueled P' m Q'.
Proof.
  intros Hm HP HQ w Hw. destruct (Hm w (HP _ Hw)) as [Hend Hq]. split; auto.
Qed.

Lemma fueled_pure {A} (fact : Prop) (P : Feed -> Prop) (m : M World A)
    (Q : A -> Feed -> Prop) :
  (fact -> fueled P m Q) -> fueled (fun f => fact /\ P f) m Q.
Proof. intros H w [Hfact HP]. apply H; assumption. Qed.

Lemma fueled_emit (P : Feed -> Prop) (e : Effect) (Q : unit -> Feed -> Prop) :
  (forall f, P f -> Q tt f) -> fueled P (emit e) Q.
Proof. intros H w HP. simpl. split; [discriminate | intros [] _; auto]. Qed.

Lemma fueled_sleep (P : Feed -> Prop) (seconds : Z) (Q : unit -> Feed -> Prop) :
  (forall f, P f -> Q tt f) -> fueled P (sleep seconds) Q.
Proof.
  intros H. unfold sleep. destruct (seconds <? 0);
    [apply fueled_raise | apply fueled_emit; exact H].
Qed.

Lemma fueled_call (P : Feed -> Prop) (c : Call) (Q : string -> Feed -> Prop) :
  (forall s f, P f -> Q s f) -> fueled P (call c) Q.
Proof.
  intros H w HP. unfold call, bind. simpl. split; [discriminate | intros a [= <-]; auto].
Qed.

Lemma fueled_fetch (P : Feed -> Prop) (Q : gmap string StatusRec -> Feed -> Prop) :
  (forall d rest, P (Answer d :: rest) -> Q d rest) -> fueled P _status Q.
Proof.
  intros H w HP. unfold _status, bind. simpl.
  destruct (status_feed w) as [| [d | e] rest] eqn:Hf; simpl;
    (split; [discriminate |]); intros a [=]. subst. auto.
Qed.

Lemma fueled_with_bar {A} (P : Feed -> Prop) (Q : A -> Feed -> Prop)
    (bar : Bar) (total : Z) (body : M World A) :
  fueled P body Q -> fueled P (with_bar bar total body) Q.
Proof.
  intros Hb w HP. unfold with_bar, bind. simpl.
  set (w1 := set_trace w (trace w ++ [BarOpened bar total])).
  destruct (Hb w1 HP) as [Hend HQ].
  destruct (body w1) as [[a | e | |] w2]; simpl in *.
  - split; [discriminate |]. intros a' [= <-]. apply HQ. reflexivity.
  - split; [discriminate | intros ? [=]].
  - split; [discriminate | intros ? [=]].
  - contradiction.
Qed.

Lemma fueled_try_except {A} (P : Feed -> Prop) (m : M World A)
    (h : exn -> option (M World A)) (Q : A -> Feed -> Prop) :
  fueled P m Q ->
  (forall e handler, h e = Some handler -> fueled (fun _ => True) handler Q) ->
  fueled P (try_except m h) Q.
Proof.
  intros Hm Hh w HP. destruct (Hm w HP) as [Hend HQ]. unfold try_except.
  destruct (m w) as [[a | e | |] w1]; simpl in *.
  - split; [discriminate | exact HQ].
  - destruct (h e) as [handler |] eqn:He.
    + apply (Hh e handler He). exact I.
    + simpl. split; [discriminate | intros ? [=]].
  - split; [discriminate | intros ? [=]].
  - contradiction.
Qed.

(** A bound computed from the feed [m] starts with. *)
Lemma fueled_measured {A} (P : Feed -> Prop) (m : nat -> M World A)
    (Q : A -> Feed -> Prop) :
  (forall n, fueled (fun f => P f /\ length f = n) (m n) Q) ->
  fueled P (fun w => m (length (status_feed w)) w) Q.
Proof. intros H w HP. apply (H (length (status_feed w)) w). auto. Qed.

Variable self : Task.Trainer.

Lemma get_numbers_fueled (s : StatusRec) : Task.get_numbers s <> OutOfFuel.
Proof.
  unfold Task.get_numbers.
  destruct (Py.fnmatch _ _); [| discriminate].
  destruct (nth_error _ 1); [| discriminate].
  destruct (Py.split (Py.strip _) _) as [| a [| b [| c l]]]; try discriminate.
  destruct (Py.int a); [| discriminate].
  destruct (Py.int b); discriminate.
Qed.

(** A fetch of the session's status takes one answer off the feed. *)
Lemma status_fueled_any (bound : nat) :
  fueled (fun f => (length f <= bound)%nat) (Task.status self)
    (fun _ f => (S (length f) <= bound)%nat).
Proof.
  unfold Task.status.
  eapply fueled_bind with (Q := fun _ f => (S (length f) <= bound)%nat).
  - apply fueled_fetch. intros d rest Hlen. simpl in Hlen. lia.
  - intros d. destruct (d !! Task.name self).
    + destruct (Task.safe_mode self); apply fueled_ret; auto.
    + apply fueled_raise.
Qed.

Lemma iteration_loop_fueled (fs : Z) (fuel : nat) :
  forall (bound : nat) iteration n sleep_time s,
    (bound < fuel)%nat ->
    fueled (fun f => (length f <= bound)%nat)
      (Task.iteration_loop self fuel fs iteration n sleep_time s)
      (fun _ f => (length f <= bound)%nat).
Proof.
  induction fuel as [| fuel IH]; intros bound iteration n sleep_time s Hb; [lia |].
  simpl. destruct iteration; [| apply fueled_ret; auto].
  eapply fueled_bind with (Q := fun _ f => (length f <= bound)%nat).
  { apply fueled_lift; [apply get_numbers_fueled | auto]. }
  intros [[iteration curr_step] max_iterations].
  eapply fueled_bind with (Q := fun _ f => (length f <= bound)%nat).
  { destruct (0 <? curr_step - n).
    - eapply fueled_bind with (Q := fun _ f => (length f <= bound)%nat).
      + apply fueled_emit. auto.
      + intros _. apply fueled_ret. auto.
    - apply fueled_ret. auto. }
  intros [n' sleep_time'].
  eapply fueled_bind with (Q := fun _ f => (length f <= bound)%nat).
  { apply fueled_sleep. auto. }
  intros _.
  eapply fueled_bind; [apply status_fueled_any |].
  intros s'. destruct bound as [| bound].
  - intros w Hw. simpl in Hw. lia.
  - eapply fueled_weaken; [apply (IH bound); lia | simpl; intros; lia | simpl; intros; lia].
Qed.

Lemma polling_loop_fueled (fs : Z) (fuel : nat) :
  forall (bound : nat) v s,
    (bound + 2 <= fuel)%nat ->
    fueled (fun f => (length f <= bound)%nat)
      (Task.polling_loop self fuel fs v s) (fun _ _ => True).
Proof.
  induction fuel as [| fuel IH]; intros bound v s Hb; [lia |].
  simpl. destruct (negb (Status s =? Task.end_message)%string); [| apply fueled_ret; auto].
  destruct (Status s =? Task.error_message)%string; [apply fueled_raise |].
  eapply fueled_bind with (Q := fun _ f => (length f <= bound)%nat).
  { apply fueled_lift; [apply get_numbers_fueled | auto]. }
  intros [[iteration c] max_iterations].
  eapply fueled_bind with (Q := fun _ f => (length f <= bound)%nat).
  { destruct iteration; [| apply fueled_ret; auto].
    apply fueled_with_bar.
    eapply fueled_bind; [apply (iteration_loop_fueled fs fuel bound); lia |].
    intros [[n st] s']. simpl.
    eapply fueled_bind with (Q := fun _ f => (length f <= bound)%nat).
    - apply fueled_emit. auto.
    - intros _. apply fueled_ret. auto. }
  intros [sleep_time s']. simpl.
  eapply fueled_bind with (Q := fun _ f => (length f <= bound)%nat).
  { destruct ((Task.step v =? Task.current v) && Task.is_init v);
      (eapply fueled_bind with (Q := fun _ f => (length f <= bound)%nat);
       [apply fueled_emit; auto | intros _; apply fueled_ret; auto]). }
  intros c'.
  eapply fueled_bind with (Q := fun _ f => (length f <= bound)%nat).
  { apply fueled_sleep. auto. }
  intros _.
  eapply fueled_bind; [apply status_fueled_any |].
  intros s''. destruct bound as [| bound].
  - intros w Hw. simpl in Hw. lia.
  - eapply fueled_weaken; [apply (IH bound); lia | simpl; intros; lia | auto].
Qed.

Lemma polling_fueled (fs : Z) (fuel bound : nat) (s : StatusRec) :
  (bound + 2 <= fuel)%nat ->
  fueled (fun f => (length f <= bound)%nat) (Task.polling self fuel fs s) (fun _ _ => True).
Proof.
  intros Hb. unfold Task.polling. apply fueled_with_bar.
  eapply fueled_bind; [apply (polling_loop_fueled fs fuel bound); exact Hb |].
  intros [v s']. simpl.
  eapply fueled_bind with (Q := fun _ _ => True).
  - destruct (negb (Task.current v =? TotalSteps s) && negb (Task.is_init v));
      [apply fueled_emit; auto |].
    destruct (negb (Task.current v =? TotalSteps s) && Task.is_init v);
      [apply fueled_emit; auto | apply fueled_ret; auto].
  - intros _. apply fueled_ret. auto.
Qed.

(** [wait_setup] of [jai/task/trainer.py] never reaches the loop bound:
    what it hands back is what the Python method does on that feed. *)
Lemma wait_setup_has_fuel (fs : Z) (w : World) :
  fst (Task.wait_setup self fs w) <> OutOfFuel.
Proof.
  assert (H : fueled (fun _ => True) (Task.wait_setup self fs) (fun _ _ => True)).
  { unfold Task.wait_setup.
    eapply fueled_bind with (Q := fun _ _ => True).
    { intros w0 _.
      destruct (status_fueled_any (length (status_feed w0)) w0) as [Hend _]; [simpl; lia |].
      split; [exact Hend | auto]. }
    intros s.
    eapply fueled_bind with (Q := fun _ _ => True).
    { apply (fueled_measured (fun _ => True)
               (fun n => try_except (Task.polling self (2 + n) fs s) (Task.on_interrupt self))).
      intros n. apply fueled_try_except.
      - eapply fueled_weaken; [apply (polling_fueled fs (2 + n) n s); lia | | auto].
        simpl. intros f [_ Hf]. lia.
      - intros e handler He. destruct e; try discriminate. injection He as <-.
        eapply fueled_bind with (Q := fun _ _ => True); [apply fueled_emit; auto |].
        intros _.
        eapply fueled_bind with (Q := fun _ _ => True); [apply fueled_call; auto |].
        intros response.
        eapply fueled_bind with (Q := fun _ _ => True).
        + destruct (Task.safe_mode self); apply fueled_ret; auto.
        + intros r. apply fueled_raise. }
    intros s'.
    eapply fueled_bind with (Q := fun _ _ => True); [apply fueled_call; auto |].
    intros response.
    eapply fueled_bind with (Q := fun _ _ => True).
    - destruct (Task.safe_mode self); apply fueled_ret; auto.
    - intros _. apply fueled_ret. auto. }
  apply (H w I).
Qed.

End Fuel.

Section CoreFuel.
Import Core.
Variable self : jAI.

Lemma name_in_fueled (name : string) (names_ : Reply) : name_in name names_ <> OutOfFuel.
Proof. destruct names_ as [[] | |]; discriminate. Qed.

Lemma redraw_fueled (n : nat) (prefix suffix : string) (names_ : Reply) (fuel : nat) :
  forall name w,
    (0 < n)%nat -> (length (entropy w) < fuel)%nat ->
    fst (redraw fuel n prefix suffix names_ name w) <> OutOfFuel.
Proof.
  induction fuel as [| fuel IH]; intros name w Hn Hlen; [lia |].
  simpl. unfold bind at 1, lift.
  pose proof (name_in_fueled name names_) as Hin.
  destruct (name_in name names_) as [[|] | e | |]; simpl; try discriminate; try contradiction.
  unfold bind, draw_name, token_hex, bind.
  destruct (length (entropy w) <? n)%nat eqn:Hdraw; simpl; [discriminate |].
  apply Nat.ltb_ge in Hdraw. apply IH; [exact Hn |]. simpl. rewrite length_skipn. lia.
Qed.

(** [generate_name] never reaches the loop bound. *)
Lemma generate_name_has_fuel (length_ : Z) (prefix suffix : string) (w : Net) :
  fst (generate_name self length_ prefix suffix w) <> OutOfFuel.
Proof.
  unfold generate_name.
  destruct (Z.leb_spec length_ (Py.len prefix + Py.len suffix)) as [Hle | Hlt];
    [discriminate |].
  set (n := Z.to_nat _). assert (Hn : (0 < n)%nat) by (unfold n; lia).
  unfold bind at 1, draw_name, token_hex, bind at 1.
  destruct (length (entropy w) <? n)%nat; cbn -[redraw]; [discriminate |].
  unfold bind at 1.
  destruct (names self _) as [[names_ | e | |] w1] eqn:Hnames; cbn -[redraw];
    try discriminate.
  - apply redraw_fueled; [exact Hn | lia].
  - exfalso. revert Hnames. unfold names, requests_get, request, bind. simpl.
    destruct (wire w) as [| [r | e] rest]; simpl; try discriminate.
    destruct (status_code r =? 200); discriminate.
Qed.

End CoreFuel.

Section CoreLoop.
Import Core.
Variable self : jAI.











End CoreLoop.





Section CoreUpload.
Import Core.
Variable self : jAI.
Variable data2json : list Json -> Json -> outcome Json.





End CoreUpload.



(** X4.  The edge cases of [jAI.setup].  With [batch_size = 0] it
    raises [ValueError] before any request; with a negative
    [batch_size], or with no rows, it posts no data and goes straight to
    the request that starts the training. *)
Theorem X4_core_setup_without_batches :
  forall (self : Core.jAI) (data2json : list Json -> Json -> outcome Json)
         (name : string) (data : list Json) (db_type : Json) (bs : Z)
         (kwargs : list (string * Json)) (w : Core.Net),
    (bs = 0 ->
     exists msg,
       Core.setup self data2json name data db_type bs kwargs w = (Raise (ValueError msg), w))
    /\ (bs < 0 \/ bs <> 0 /\ data = [] ->
        Core.setup self data2json name data db_type bs kwargs w
        = (let* setup_response := Core._setup_database self name db_type kwargs in
           ret ([], setup_response)) w).
Proof.
  intros self data2json name data db_type bs kwargs w. split.
  - intros ->. eexists. reflexivity.
  - intros Hbs. unfold Core.setup, Core.py_range.
    replace (bs =? 0) with false by (symmetry; apply Z.eqb_neq; lia).
    assert (Hnone : Core.range_go (Z.to_nat (Z.abs (Z.of_nat (length data) - 0))) 0
                      (Z.of_nat (length data)) bs = []).
    { destruct Hbs as [Hneg | [_ ->]]; [| reflexivity].
      destruct (Z.to_nat _); [reflexivity |]. cbn [Core.range_go].
      replace (0 <? bs) with false by (symmetry; apply Z.ltb_ge; lia).
      replace (Z.of_nat (length data) <? 0) with false by (symmetry; apply Z.ltb_ge; lia).
      reflexivity. }
    rewrite Hnone. reflexivity.
Qed.

Lemma X4_witness :
  (exists msg,
     Core.setup demo_client (fun b _ => Ret (JList b)) "db" demo_rows (JStr "Text") 0 []
       (core_world [] [])
     = (Raise (ValueError msg), core_world [] []))
  /\ Core.setup demo_client (fun b _ => Ret (JList b)) "db" demo_rows (JStr "Text") (-1) []
       (core_world [reply 201 (JStr "go")] [])
     = (Ret ([], Core.Parsed (JStr "go")),
        {| Core.wire := []; Core.entropy := [];
           Core.done := [Core.Sent (setup_request demo_client "db" (JStr "Text") [])] |}).
Proof.
  destruct (X4_core_setup_without_batches demo_client (fun b _ => Ret (JList b)) "db"
              demo_rows (JStr "Text") 0 [] (core_world [] [])) as [Hzero _].
  destruct (X4_core_setup_without_batches demo_client (fun b _ => Ret (JList b)) "db"
              demo_rows (JStr "Text") (-1) [] (core_world [reply 201 (JStr "go")] []))
    as [_ Hneg].
  split.
  - apply Hzero. reflexivity.
  - rewrite Hneg; [reflexivity | left; lia].
Defined.

(** X5.  Every operation of the core client that makes its request makes
    exactly one, whatever comes back: the request carries the header
    chosen when the client was built and goes to a URL under its base
    URL; at most one response is taken off the wire; and the only other
    thing the client does is to print.  [_similar_id] with a method other
    than GET and PUT raises [ValueError] and sends nothing. *)
Theorem X5_one_request_with_the_session_header :
  forall (self : Core.jAI) (op : Core.Operation) (w : Core.Net),
    (Core.makes_request op = true ->
     exists req extra,
       Core.done (snd (Core.perform self op w)) = Core.done w ++ Core.Sent req :: extra
       /\ Core.headers req = Core.header self
       /\ Py.startswith (Core.base_api_url self) (Core.url req) = true
       /\ Forall is_print extra
       /\ Core.wire (snd (Core.perform self op w)) = tl (Core.wire w))
    /\ (Core.makes_request op = false ->
        exists msg, Core.perform self op w = (Raise (ValueError msg), w)).
Proof.
  intros self op w. split.
  - intros Hreq.
    assert (Hone : forall (v : Core.Verb) (path : string) (d : option Json) (ok : Z)
                          (wrap : Json -> Core.Reply),
               let req := {| Core.verb := v; Core.url := Core.base_api_url self +:+ path;
                             Core.headers := Core.header self; Core.data := d |} in
               let m := (let* response := Core.request req in
                         if Core.status_code response =? ok
                         then ret (wrap (Core.body response))
                         else Core.assert_status_code response) in
               exists req extra,
                 Core.done (snd (m w)) = Core.done w ++ Core.Sent req :: extra
                 /\ Core.headers req = Core.header self
                 /\ Py.startswith (Core.base_api_url self) (Core.url req) = true
                 /\ Forall is_print extra
                 /\ Core.wire (snd (m w)) = tl (Core.wire w)).
    { intros v path d ok wrap req m. exists req.
      unfold m, bind, Core.request, Core.assert_status_code, Core.print, Core.emit.
      destruct (Core.wire w) as [| [r | e] rest]; cbn.
      - exists []. repeat split; auto. apply startswith_append.
      - destruct (Core.status_code r =? ok); cbn.
        + exists []. repeat split; auto. apply startswith_append.
        + exists [Core.Printed (Core.body r)]. rewrite <- app_assoc.
          repeat split; auto; [apply startswith_append | repeat constructor].
      - exists []. repeat split; auto. apply startswith_append. }
    destruct op; cbn [Core.perform]; try (apply Hone).
    unfold Core._similar_id. cbn in Hreq.
    destruct (String.eqb method "GET").
    + destruct id_item; apply Hone.
    + destruct (String.eqb method "PUT"); [apply Hone | discriminate].
  - intros Hreq. destruct op; try discriminate. cbn in Hreq.
    apply orb_false_iff in Hreq as [Hget Hput].
    cbn [Core.perform]. unfold Core._similar_id. rewrite Hget, Hput.
    eexists. reflexivity.
Qed.

Lemma X5_witness :
  (exists req extra,
     Core.done (snd (Core.perform demo_client (Core.Append "db")
                       (core_world [reply 500 (JStr "no")] [])))
     = [] ++ Core.Sent req :: extra
     /\ Core.headers req = ("Auth", "key")
     /\ Py.startswith "https://mycelia.azure-api.net" (Core.url req) = true
     /\ Forall is_print extra)
  /\ exists msg,
       Core.perform demo_client (Core.SimilarId "db" (Core.OneId 1) 5 "POST")
         (core_world [] [])
       = (Raise (ValueError msg), core_world [] []).
Proof.
  split.
  - destruct (X5_one_request_with_the_session_header demo_client (Core.Append "db")
                (core_world [reply 500 (JStr "no")] [])) as [Hone _].
    destruct (Hone eq_refl) as (req & extra & Hlog & Hhead & Hurl & Hprint & _).
    exists req, extra. auto.
  - destruct (X5_one_request_with_the_session_header demo_client
                (Core.SimilarId "db" (Core.OneId 1) 5 "POST") (core_world [] []))
      as [_ Hnone].
    apply Hnone. reflexivity.
Defined.

Lemma but_last_append (u : string) : Py.but_last (u +:+ "/") = u.
Proof.
  unfold Py.but_last. rewrite list_of_string_append.
  change (list_ascii_of_string "/") with ["/"%char].
  rewrite removelast_last. apply string_of_list_ascii_of_string.
Qed.

(** X6.  A trailing slash of the custom URL is dropped when the client is
    built: the client for [url + "/"] is the client for [url], which
    keeps [url] as it is and sends the key in the header [company-key]. *)
Theorem X6_init_drops_a_trailing_slash :
  forall (auth_key u : string),
    Py.endswith "/" u = false ->
    Core.__init__ auth_key (Some (u +:+ "/")) = Core.__init__ auth_key (Some u)
    /\ Core.__init__ auth_key (Some u)
       = {| Core.base_api_url := u; Core.header := ("company-key", auth_key) |}.
Proof.
  intros auth_key u Hu. unfold Core.__init__.
  rewrite endswith_append, but_last_append, Hu. split; reflexivity.
Qed.

Lemma X6_witness :
  Core.__init__ "key" (Some "http://localhost:8001/")
  = {| Core.base_api_url := "http://localhost:8001";
       Core.header := ("company-key", "key") |}.
Proof.
  destruct (X6_init_drops_a_trailing_slash "key" "http://localhost:8001" eq_refl)
    as [Hslash Hplain].
  change ("http://localhost:8001/") with ("http://localhost:8001" +:+ "/").
  rewrite Hslash. exact Hplain.
Defined.

Section PySplit.

Lemma fnmatch_star (pat name : string) :
  Py.fnmatch_from (String "*" pat) name
  = Py.fnmatch_from pat name
    || match name with
       | EmptyString => false
       | String _ n' => Py.fnmatch_from (String "*" pat) n'
       end.
Proof. destruct name; reflexivity. Qed.

Lemma fnmatch_literal (c : ascii) (pat name : string) :
  literal c ->
  Py.fnmatch_from (String c pat) name
  = match name with
    | EmptyString => false
    | String d n' => Ascii.eqb c d && Py.fnmatch_from pat n'
    end.
Proof.
  intros (Hstar & Hq & _). cbn [Py.fnmatch_from].
  apply Ascii.eqb_neq in Hstar, Hq. rewrite Hstar.
  destruct name as [| d n']; [reflexivity |]. rewrite Hq.
  destruct (Ascii.eqb c d); reflexivity.
Qed.

Lemma fnmatch_any (name : string) : Py.fnmatch_from "*" name = true.
Proof.
  induction name as [| c name IH]; [reflexivity |].
  rewrite fnmatch_star. rewrite IH. apply orb_true_r.
Qed.

Lemma fnmatch_prefix (lit name : string) :
  Forall literal (list_ascii_of_string lit) ->
  Py.fnmatch_from (lit +:+ "*") name = Py.startswith lit name.
Proof.
  revert name. induction lit as [| c lit IH]; intros name Hlit.
  - rewrite string_append_nil, fnmatch_any. reflexivity.
  - cbn in Hlit. apply Forall_cons in Hlit as [Hc Hlit].
    rewrite string_append_cons, (fnmatch_literal _ _ _ Hc).
    destruct name as [| d name]; [reflexivity |]. cbn [Py.startswith].
    destruct (Ascii.eqb c d); [apply IH; exact Hlit | reflexivity].
Qed.

(** [fnmatch(name, "*" + lit + "*")] is [lit in name]. *)
Lemma fnmatch_contains (lit name : string) :
  Forall literal (list_ascii_of_string lit) ->
  Py.fnmatch name ("*" +:+ lit +:+ "*") = Py.contains lit name.
Proof.
  intros Hlit. unfold Py.fnmatch.
  change ("*" +:+ lit +:+ "*") with (String "*" (lit +:+ "*")).
  induction name as [| c name IH].
  - rewrite fnmatch_star, (fnmatch_prefix _ _ Hlit). reflexivity.
  - rewrite fnmatch_star, (fnmatch_prefix _ _ Hlit), IH. reflexivity.
Qed.

Lemma contains_cons (p : string) (c : ascii) (s : string) :
  Py.contains p (String c s) = Py.startswith p (String c s) || Py.contains p s.
Proof. reflexivity. Qed.


Lemma startswith_longer (p s x : string) :
  Py.startswith p s = true -> Py.startswith p (s +:+ x) = true.
Proof.
  revert s. induction p as [| a p IH]; intros s H; [reflexivity |].
  destruct s as [| b s]; [discriminate |]. rewrite string_append_cons.
  cbn [Py.startswith] in *. destruct (Ascii.eqb a b); [apply IH; exact H | discriminate].
Qed.

Lemma contains_longer (p s x : string) :
  Py.contains p s = true -> Py.contains p (s +:+ x) = true.
Proof.
  induction s as [| c s IH]; intros H.
  - cbn in H. rewrite orb_false_r in H. destruct p; [| discriminate].
    destruct (EmptyString +:+ x); reflexivity.
  - rewrite string_append_cons, contains_cons. rewrite contains_cons in H.
    apply orb_true_iff in H as [H | H].
    + rewrite <- string_append_cons, (startswith_longer _ _ _ H). reflexivity.
    + rewrite (IH H). apply orb_true_r.
Qed.

Lemma rev_string_cons (c : ascii) (l acc : list ascii) :
  rev l ++ c :: acc = rev (c :: l) ++ acc.
Proof. cbn. rewrite <- app_assoc. reflexivity. Qed.

(** A string without the separator is one piece. *)
Lemma split_from_absent (sep : string) :
  forall (s : string) (acc : list ascii),
    Py.contains sep s = false ->
    Py.split_from sep 0 acc s
    = [Py.rev_string (rev (list_ascii_of_string s) ++ acc)].
Proof.
  induction s as [| c s IH]; intros acc H; [reflexivity |].
  rewrite contains_cons in H. apply orb_false_iff in H as [Hhere Hlater].
  cbn [Py.split_from]. rewrite Hhere, (IH _ Hlater).
  cbn [list_ascii_of_string]. rewrite rev_string_cons. reflexivity.
Qed.


Lemma split_from_skip_all (sep : string) :
  forall (x : string) (acc : list ascii) (k : nat),
    (String.length x <= k)%nat -> x <> EmptyString ->
    Py.split_from sep k acc x = [Py.rev_string acc].
Proof.
  induction x as [| c x IH]; intros acc k Hk Hx; [contradiction |].
  cbn [String.length] in Hk. destruct k as [| k]; [lia |]. cbn [Py.split_from].
  destruct x as [| d x]; [reflexivity |]. apply IH; [cbn [String.length] in *; lia | discriminate].
Qed.



End PySplit.

Section PyDigits.













End PyDigits.

Section TaskNumbers.
Import Remote.








Lemma marker_literal : Forall literal (list_ascii_of_string "Iteration:").
Proof. repeat constructor; discriminate. Qed.


End TaskNumbers.



(** X8.  The flag [get_numbers] returns tells whether the description
    holds ["Iteration:"]: without it the answer is [(False, 0, 0)], with
    it the flag is [True] whenever a triple is returned.  A description
    that holds ["Iteration:"] but never followed by a space makes
    [get_numbers] raise [IndexError]. *)
Theorem X8_get_numbers_follows_the_marker :
  forall (status : Remote.StatusRec),
    (Py.contains "Iteration:" (Remote.Description status) = false ->
     Task.get_numbers status = Ret (false, 0, 0))
    /\ (forall flag i n,
          Task.get_numbers status = Ret (flag, i, n) ->
          flag = Py.contains "Iteration:" (Remote.Description status))
    /\ (Py.contains "Iteration:" (Remote.Description status) = true ->
        Py.contains "Iteration: " (Remote.Description status) = false ->
        Task.get_numbers status = Raise IndexError).
Proof.
  intros status. unfold Task.get_numbers.
  change "*Iteration:*" with ("*" +:+ "Iteration:" +:+ "*").
  rewrite (fnmatch_contains _ _ marker_literal).
  split; [| split].
  - intros ->. reflexivity.
  - intros flag i n.
    destruct (Py.contains "Iteration:" (Remote.Description status)).
    + destruct (nth_error _ 1) as [tail |]; [| discriminate].
      destruct (Py.split (Py.strip tail) " / ") as [| a [| b [| ? ?]]]; try discriminate.
      destruct (Py.int a); [| discriminate]. destruct (Py.int b); [| discriminate].
      intros [= <- _ _]. reflexivity.
    + intros [= <- _ _]. reflexivity.
  - intros -> Habsent. unfold Py.split at 1.
    rewrite (split_from_absent _ _ [] Habsent). reflexivity.
Qed.

Lemma X8_witness :
  Task.get_numbers (demo_record "Running" "Training the model" 1 4) = Ret (false, 0, 0)
  /\ true = Py.contains "Iteration:" "Iteration: 3 / 10"
  /\ Task.get_numbers (demo_record "Running" "Iteration:3/10" 1 4) = Raise IndexError.
Proof.
  split; [| split].
  - apply (X8_get_numbers_follows_the_marker (demo_record "Running" "Training the model" 1 4)).
    reflexivity.
  - apply (X8_get_numbers_follows_the_marker (demo_record "Running" "Iteration: 3 / 10" 1 4))
      with (i := 3) (n := 10).
    reflexivity.
  - apply (X8_get_numbers_follows_the_marker (demo_record "Running" "Iteration:3/10" 1 4));
      reflexivity.
Defined.

Section TaskFlatten.

(** Induction on a document, the elements of a list included. *)
Lemma Json_nested_ind (P : Json -> Prop) :
  P JNull -> (forall b, P (JBool b)) -> (forall n, P (JNum n)) -> (forall s, P (JStr s)) ->
  (forall items, Forall P items -> P (JList items)) ->
  (forall items, P (JDict items)) ->
  forall j, P j.
Proof.
  intros Hnull Hbool Hnum Hstr Hlist Hdict. fix IH 1.
  intros [| b | n | s | items | items];
    [exact Hnull | apply Hbool | apply Hnum | apply Hstr | | apply Hdict].
  apply Hlist. induction items as [| x items IHitems]; constructor; [apply IH | exact IHitems].
Qed.

Lemma flatten_el_scalar (j : Json) : Forall scalar (Task.flatten_el j).
Proof.
  induction j as [| b | n | s | items IH | items] using Json_nested_ind;
    try (repeat constructor).
  - cbn [Task.flatten_el]. induction IH as [| x items Hx _ IHitems]; [constructor |].
    cbn [flat_map]. apply Forall_app. split; assumption.
  - cbn [Task.flatten_el]. induction items as [| kv items IHitems]; constructor;
      [exact I | exact IHitems].
Qed.

Lemma flat_map_scalar (items : list Json) :
  Forall scalar (flat_map Task.flatten_el items).
Proof.
  induction items as [| x items IH]; [constructor |].
  cbn [flat_map]. apply Forall_app. split; [apply flatten_el_scalar | exact IH].
Qed.

Lemma flat_map_of_scalars (items : list Json) :
  Forall scalar items -> flat_map Task.flatten_el items = items.
Proof.
  induction 1 as [| x items Hx _ IH]; [reflexivity |].
  cbn [flat_map]. rewrite IH. destruct x; try contradiction; reflexivity.
Qed.

Lemma flat_map_groups (groups : list (list Json)) :
  flat_map Task.flatten_el (map JList groups) = flat_map Task.flatten_el (concat groups).
Proof.
  induction groups as [| g groups IH]; [reflexivity |].
  cbn [map flat_map concat]. rewrite flat_map_app, IH. reflexivity.
Qed.

End TaskFlatten.

(** X9.  [flatten_sample] of a list yields neither lists nor
    dictionaries; it leaves a list without lists and dictionaries as it
    is, so flattening twice is flattening once; and how the elements are
    grouped into inner lists makes no difference to what is yielded, nor
    to its order. *)
Theorem X9_flatten_sample_flattens :
  forall (items : list Json),
    exists flat,
      Task.flatten_sample (JList items) = Ret flat
      /\ Forall scalar flat
      /\ Task.flatten_sample (JList flat) = Ret flat
      /\ (Forall scalar items -> flat = items)
      /\ (forall groups, items = map JList groups ->
                         Task.flatten_sample (JList (concat groups)) = Ret flat).
Proof.
  intros items. exists (flat_map Task.flatten_el items).
  split; [reflexivity |]. split; [apply flat_map_scalar |].
  split; [cbn [Task.flatten_sample]; rewrite (flat_map_of_scalars _ (flat_map_scalar items));
          reflexivity |].
  split; [apply flat_map_of_scalars |].
  intros groups ->. cbn [Task.flatten_sample]. rewrite flat_map_groups. reflexivity.
Qed.

Lemma X9_witness :
  Task.flatten_sample (JList [JNum 1; JStr "ab"; JNum 2]) = Ret [JNum 1; JStr "ab"; JNum 2]
  /\ Task.flatten_sample (JList [JNum 1; JNum 2; JList [JNum 3]; JNum 4])
     = Task.flatten_sample (JList [JList [JNum 1; JNum 2]; JList [JList [JNum 3]; JNum 4]]).
Proof.
  split.
  - destruct (X9_flatten_sample_flattens [JNum 1; JStr "ab"; JNum 2])
      as (flat & Hflat & _ & _ & Hsame & _).
    rewrite Hflat. f_equal. apply Hsame. repeat constructor.
  - destruct (X9_flatten_sample_flattens
                [JList [JNum 1; JNum 2]; JList [JList [JNum 3]; JNum 4]])
      as (flat & Hflat & _ & _ & _ & Hgroups).
    rewrite Hflat. apply (Hgroups [[JNum 1; JNum 2]; [JList [JNum 3]; JNum 4]]). reflexivity.
Defined.

Section TaskBases.
Import Remote.
Variable ext : Task.Externals.
Variable self : Task.Trainer.

Lemma set_trace_set_trace (w : World) (t t' : list Effect) :
  set_trace (set_trace w t) t' = set_trace w t'.
Proof. reflexivity. Qed.

Lemma set_trace_same (w : World) : set_trace w (trace w ++ []) = w.
Proof. destruct w. unfold set_trace. cbn. rewrite app_nil_r. reflexivity. Qed.

Lemma check_bases_frame_step (df : Frame) (p c : string) (rest : list (string * string))
    (found : Task.Found) (flat : list Json) (w : World) :
  Task.flat_ids ext df c = Ret flat ->
  Task.check_bases_from ext self (Task.DataFrame df) ((p, c) :: rest) found w
  = if Task.all_isin ext flat (id_lists w p) then
      Task.check_bases_from ext self (Task.DataFrame df) rest
        (Some flat, Some (id_lists w p))
        (set_trace w (trace w ++ [Called (Ids p "complete");
                                  Printed ("YES: " +:+ c +:+ "->" +:+ p)]))
    else
      (Raise (KeyError ("Id values on column `" +:+ c
                          +:+ "` must belong to the set of Ids from database "
                          +:+ p +:+ ".")),
       set_trace w (trace w ++ [Called (Ids p "complete")])).
Proof.
  intros Hflat. cbn [Task.check_bases_from].
  unfold bind, lift, _ids, check_response, print, emit, ret, raise. rewrite Hflat.
  destruct (Task.safe_mode self); cbn;
    destruct (Task.all_isin ext flat (id_lists w p)); cbn;
    rewrite ?set_trace_set_trace; cbn; rewrite <- ?app_assoc; reflexivity.
Qed.

Lemma base_ok_set_trace (df : Frame) (w : World) (t : list Effect) (b : string * string) :
  base_ok ext df w b -> base_ok ext df (set_trace w t) b.
Proof. intros H. exact H. Qed.

Lemma check_bases_frame_run (df : Frame) (rest : list (string * string)) :
  forall (good : list (string * string)) (found : Task.Found) (w : World),
    Forall (base_ok ext df w) good ->
    exists found',
      Task.check_bases_from ext self (Task.DataFrame df) (good ++ rest) found w
      = Task.check_bases_from ext self (Task.DataFrame df) rest found'
          (set_trace w (trace w ++ base_checks good)).
Proof.
  induction good as [| [p c] good IH]; intros found w Hgood.
  - exists found. cbn. rewrite set_trace_same. reflexivity.
  - apply Forall_cons in Hgood as [(flat & Hflat & Hin) Hgood]. cbn [fst snd] in *.
    cbn [app]. rewrite (check_bases_frame_step df p c _ found flat w Hflat), Hin.
    destruct (IH (Some flat, Some (id_lists w p))
                (set_trace w (trace w ++ [Called (Ids p "complete");
                                          Printed ("YES: " +:+ c +:+ "->" +:+ p)])))
      as [found' Hrun].
    { eapply Forall_impl; [exact Hgood |]. intros b Hb. exact Hb. }
    exists found'. rewrite Hrun. rewrite set_trace_set_trace. cbn [trace set_trace].
    rewrite <- app_assoc. reflexivity.
Qed.

Lemma check_bases_frame_ok (df : Frame) (good : list (string * string)) (w : World) :
  Forall (base_ok ext df w) good ->
  Task._check_pretrained_bases ext self (Task.DataFrame df) good w
  = (Ret tt, set_trace w (trace w ++ base_checks good)).
Proof.
  intros Hgood. unfold Task._check_pretrained_bases.
  destruct (check_bases_frame_run df [] good (None, None) w Hgood) as [found Hrun].
  rewrite app_nil_r in Hrun. rewrite Hrun. reflexivity.
Qed.

End TaskBases.

(** X10.  [_check_pretrained_bases] on a data frame checks the bases in
    order and stops at the first whose column holds an id the parent
    collection lacks: it raises [KeyError] there, having fetched the
    parent's ids once for that base and once for each base before it,
    and having printed a line for each base before it.  The bases after
    it are not looked at.  When every base passes, it returns. *)
Theorem X10_check_pretrained_bases_stops_at_first_miss :
  forall (ext : Task.Externals) (self : Task.Trainer) (df : Remote.Frame)
         (good : list (string * string)) (w : Remote.World),
    Forall (base_ok ext df w) good ->
    Task._check_pretrained_bases ext self (Task.DataFrame df) good w
    = (Ret tt, Remote.set_trace w (Remote.trace w ++ base_checks good))
    /\ forall (p c : string) (flat : list Json) (rest : list (string * string)),
         Task.flat_ids ext df c = Ret flat ->
         Task.all_isin ext flat (Remote.id_lists w p) = false ->
         exists msg,
           Task._check_pretrained_bases ext self (Task.DataFrame df) (good ++ (p, c) :: rest) w
           = (Raise (KeyError msg),
              Remote.set_trace w
                (Remote.trace w ++ base_checks good
                   ++ [Remote.Called (Remote.Ids p "complete")])).
Proof.
  intros ext self df good w Hgood. split.
  - apply check_bases_frame_ok. exact Hgood.
  - unfold Task._check_pretrained_bases. intros p c flat rest Hflat Hmiss.
    destruct (check_bases_frame_run ext self df ((p, c) :: rest) good (None, None) w Hgood)
      as [found Hrun].
    rewrite Hrun, (check_bases_frame_step ext self df p c rest found flat _ Hflat).
    cbn [Remote.id_lists Remote.set_trace Remote.trace Remote.databases Remote.status_feed
           Remote.answers].
    rewrite Hmiss. eexists. rewrite <- app_assoc. reflexivity.
Qed.

Lemma X10_witness :
  let w := demo_world with_db [] in
  Task._check_pretrained_bases demo_externals demo_trainer (Task.DataFrame demo_rows)
    [("parent", "parent_id")] w
  = (Ret tt, Remote.set_trace w (Remote.trace w ++ base_checks [("parent", "parent_id")]))
  /\ exists msg,
       Task._check_pretrained_bases strict_externals demo_trainer (Task.DataFrame demo_rows)
         ([] ++ [("parent", "parent_id"); ("other", "other_id")]) w
       = (Raise (KeyError msg),
          Remote.set_trace w
            (Remote.trace w ++ base_checks []
               ++ [Remote.Called (Remote.Ids "parent" "complete")])).
Proof.
  cbv zeta. split.
  - apply (X10_check_pretrained_bases_stops_at_first_miss demo_externals demo_trainer
             demo_rows [("parent", "parent_id")] (demo_world with_db [])).
    repeat constructor. eexists. split; reflexivity.
  - destruct (X10_check_pretrained_bases_stops_at_first_miss strict_externals demo_trainer
                demo_rows [] (demo_world with_db []) (List.Forall_nil _)) as [_ Hmiss].
    apply (Hmiss "parent" "parent_id" demo_rows [("other", "other_id")]); reflexivity.
Defined.

Section TaskFit.
Import Remote.
Variable ext : Task.Externals.
Variable self : Task.Trainer.

Lemma print_lines_run (lines : list string) :
  forall w,
    Task.print_lines lines w = (Ret tt, set_trace w (trace w ++ map Printed lines)).
Proof.
  induction lines as [| l lines IH]; intros w.
  - cbn. rewrite set_trace_same. reflexivity.
  - cbn [Task.print_lines map]. unfold bind, print, emit. rewrite IH.
    rewrite set_trace_set_trace. cbn [trace set_trace]. rewrite <- app_assoc. reflexivity.
Qed.

End TaskFit.

(** X11.  [fit] on a data frame and a name that is free, not waiting for
    the training ([frequency_seconds < 1]): after the check of the name
    and of the pretrained bases, the raw data left under the name is
    deleted, the cleaned frame is uploaded batch by batch, and one call
    starts the training, after the last batch.  The answers of the
    uploads and of that call are returned, and the collection exists
    from then on. *)
Theorem X11_fit_uploads_then_trains (ext : Task.Externals) (self : Task.Trainer)
    (df df' : Remote.Frame) (overwrite : bool) (fs : Z) (w : Remote.World)
    (p : Task.SetupParams) :
  Remote.databases w !! Task.name self = None ->
  Task._setup_params self = Some p ->
  Forall (base_ok ext df w) (Task.pretrained_bases p) ->
  Task.check_dtype_and_clean ext df None = Ret df' ->
  0 < Task.batch_size (Task.insert_params self) ->
  fs < 1 ->
  let name := Task.name self in
  let bs := Remote.batches (length df') (Z.to_nat (Task.batch_size (Task.insert_params self))) df' in
  exists w',
    Task.fit ext self (Task.DataFrame df) overwrite fs w
    = (Ret (Task.Responses (map (fun b => Remote.answers w (Remote.InsertBatch name b false)) bs)
              (Remote.answers w (Remote.StartSetup name (Task.db_type_param p) overwrite))), w')
    /\ Remote.trace w'
       = Remote.trace w
         ++ [Remote.Called (Remote.IsValid name)]
         ++ base_checks (Task.pretrained_bases p)
         ++ [Remote.Called (Remote.IsValid name); Remote.Called (Remote.DeleteRawData name)]
         ++ map (fun b => Remote.Called (Remote.InsertBatch name b false)) bs
         ++ [Remote.Called (Remote.StartSetup name (Task.db_type_param p) overwrite)]
         ++ map Remote.Printed (Task.print_args ext (Task.verbose self))
    /\ Remote.databases w' = <[name := {| Remote.dtype := Task.db_type_param p |}]> (Remote.databases w).
Proof.
  intros Hd Hp Hgood Hclean Hbs Hfs name bs.
  assert (Hz : (Task.batch_size (Task.insert_params self) =? 0) = false) by (apply Z.eqb_neq; lia).
  assert (Hn : (Task.batch_size (Task.insert_params self) <? 0) = false) by (apply Z.ltb_ge; lia).
  assert (Hf : (fs <? 1) = true) by (apply Z.ltb_lt; lia).
  eexists. unfold Task.fit, bind at 1.
  rewrite (is_valid_absent self w Hd).
  unfold Task.setup_params, Task.db_type, Task.is_valid, Remote._is_valid, Remote._delete_raw_data,
    Remote._insert_data, Remote._setup, Remote.check_response, Remote.call, bind, Remote.emit, lift, ret.
  rewrite Hp. cbn -[Task._check_pretrained_bases Task.print_lines Remote.batches Remote.insert_batches
                    Z.eqb Z.ltb Z.leb].
  rewrite check_bases_frame_ok by exact Hgood.
  cbn -[Task.print_lines Remote.batches Remote.insert_batches Z.eqb Z.ltb Z.leb].
  rewrite bool_decide_false by (rewrite Hd; intros [x Hx]; discriminate).
  rewrite Hclean. cbn -[Task.print_lines Remote.batches Remote.insert_batches Z.eqb Z.ltb Z.leb].
  rewrite Hz, Hn, insert_batches_trace.
  destruct (Task.safe_mode self);
    cbn -[Task.print_lines Remote.batches Remote.insert_batches Z.eqb Z.ltb Z.leb];
    rewrite print_lines_run, Hf;
    (split; [reflexivity |]); cbn; rewrite <- ?app_assoc; split; reflexivity.
Qed.

Lemma X11_witness :
  exists w',
    Task.fit demo_externals ready_trainer (Task.DataFrame demo_rows) false 0
      (demo_world with_other [])
    = (Ret (Task.Responses ["ok"; "ok"] "ok"), w')
    /\ Remote.trace w'
       = [Remote.Called (Remote.IsValid "db");
          Remote.Called (Remote.IsValid "db"); Remote.Called (Remote.DeleteRawData "db");
          Remote.Called (Remote.InsertBatch "db" [JNum 1; JNum 2] false);
          Remote.Called (Remote.InsertBatch "db" [JNum 3] false);
          Remote.Called (Remote.StartSetup "db" "Text" false)].
Proof.
  destruct (X11_fit_uploads_then_trains demo_externals ready_trainer demo_rows demo_rows
              false 0 (demo_world with_other [])
              {| Task.db_type_param := "Text"; Task.pretrained_bases := [];
                 Task.features := [] |})
    as (w' & Hrun & Htrace & _).
  - reflexivity.
  - reflexivity.
  - constructor.
  - reflexivity.
  - reflexivity.
  - reflexivity.
  - exists w'. split; [exact Hrun | exact Htrace].
Defined.

(** X12.  [fit] with [overwrite=True] on a name that exists deletes the
    collection before it looks at the data: with data that is neither a
    frame nor a dictionary it fails, and the collection is gone. *)
Theorem X12_fit_overwrite_deletes_before_it_fails (ext : Task.Externals)
    (self : Task.Trainer) (fs : Z) (w : Remote.World) (d : Remote.DbInfo) :
  Remote.databases w !! Task.name self = Some d ->
  exists e w',
    Task.fit ext self Task.OtherData true fs w = (Raise e, w')
    /\ Remote.trace w'
       = Remote.trace w ++ [Remote.Called (Remote.IsValid (Task.name self));
                            Remote.Called (Remote.DeleteDatabase (Task.name self))]
    /\ Remote.databases w' = delete (Task.name self) (Remote.databases w).
Proof.
  intros Hd. unfold Task.fit, bind at 1. rewrite (is_valid_present self w d Hd).
  unfold Task.delete_database, Task.setup_params, Task._check_pretrained_bases,
    Remote._delete_database, Remote.check_response, Remote.call, bind, Remote.emit, lift, ret,
    raise.
  destruct (Task.safe_mode self), (Task._setup_params self) as [p |];
    cbn; try (destruct (Task.pretrained_bases p) as [| [parent column] bases]; cbn);
    do 2 eexists; (split; [reflexivity |]); cbn; rewrite <- ?app_assoc; split; reflexivity.
Qed.

Lemma X12_witness :
  exists e w',
    Task.fit demo_externals ready_trainer Task.OtherData true 0 (demo_world with_db [])
    = (Raise e, w')
    /\ Remote.databases w' = delete "db" with_db.
Proof.
  destruct (X12_fit_overwrite_deletes_before_it_fails demo_externals ready_trainer 0
              (demo_world with_db []) {| Remote.dtype := "Text" |} eq_refl)
    as (e & w' & Hrun & _ & Hgone).
  exists e, w'. split; [exact Hrun | exact Hgone].
Defined.

(** X13.  [fit] on an empty dictionary of frames and a free name.
    Without pretrained bases and with [frequency_seconds < 1] it starts
    the training although nothing was uploaded, and then raises
    [UnboundLocalError] where it returns [insert_responses]; with a
    pretrained base it raises [UnboundLocalError] for [flat_ids] right
    after the check of the name. *)
Theorem X13_fit_on_an_empty_dictionary (ext : Task.Externals) (self : Task.Trainer)
    (overwrite : bool) (fs : Z) (w : Remote.World) (p : Task.SetupParams) :
  Remote.databases w !! Task.name self = None ->
  Task._setup_params self = Some p ->
  let name := Task.name self in
  (Task.pretrained_bases p = [] -> fs < 1 ->
   exists w',
     Task.fit ext self (Task.DataDict []) overwrite fs w
     = (Raise (UnboundLocalError "insert_responses"), w')
     /\ Remote.trace w'
        = Remote.trace w
          ++ [Remote.Called (Remote.IsValid name);
              Remote.Called (Remote.StartSetup name (Task.db_type_param p) overwrite)]
          ++ map Remote.Printed (Task.print_args ext (Task.verbose self))
     /\ Remote.databases w'
        = <[name := {| Remote.dtype := Task.db_type_param p |}]> (Remote.databases w))
  /\ (Task.pretrained_bases p <> [] ->
      Task.fit ext self (Task.DataDict []) overwrite fs w
      = (Raise (UnboundLocalError "flat_ids"),
         Remote.set_trace w (Remote.trace w ++ [Remote.Called (Remote.IsValid name)]))).
Proof.
  intros Hd Hp name. split.
  - intros Hbases Hfs.
    assert (Hf : (fs <? 1) = true) by (apply Z.ltb_lt; lia).
    eexists. unfold Task.fit, bind at 1. rewrite (is_valid_absent self w Hd).
    unfold Task.setup_params, Task._check_pretrained_bases, Remote._setup,
      Remote.check_response, Remote.call, bind, Remote.emit, lift, ret.
    rewrite Hp. cbn -[Task.print_lines Z.ltb]. rewrite Hbases.
    destruct (Task.safe_mode self); cbn -[Task.print_lines Z.ltb];
      rewrite print_lines_run, Hf;
      (split; [reflexivity |]); cbn; rewrite <- ?app_assoc; split; reflexivity.
  - intros Hbases. unfold Task.fit, bind at 1. rewrite (is_valid_absent self w Hd).
    unfold Task.setup_params, Task._check_pretrained_bases, bind, ret.
    rewrite Hp. destruct (Task.pretrained_bases p) as [| [parent column] bases];
      [contradiction |]. reflexivity.
Qed.

Lemma X13_witness :
  exists w',
    Task.fit demo_externals ready_trainer (Task.DataDict []) false 0 (demo_world with_other [])
    = (Raise (UnboundLocalError "insert_responses"), w')
    /\ Remote.trace w'
       = [Remote.Called (Remote.IsValid "db");
          Remote.Called (Remote.StartSetup "db" "Text" false)].
Proof.
  destruct (X13_fit_on_an_empty_dictionary demo_externals ready_trainer false 0
              (demo_world with_other [])
              {| Task.db_type_param := "Text"; Task.pretrained_bases := [];
                 Task.features := [] |} eq_refl eq_refl) as [Hempty _].
  destruct (Hempty eq_refl ltac:(lia)) as (w' & Hrun & Htrace & _).
  exists w'. split; [exact Hrun | exact Htrace].
Defined.

(** X14.  The guards of [jai/task/trainer.py] ask the service: [fit]
    without [overwrite] on a name that exists, and [append] on a name
    that does not, raise [KeyError] after the check of the name alone;
    nothing is deleted, uploaded or trained. *)
Theorem X14_task_guards_refuse_at_once (ext : Task.Externals) (self : Task.Trainer)
    (w : Remote.World) :
  let checked :=
    Remote.set_trace w (Remote.trace w ++ [Remote.Called (Remote.IsValid (Task.name self))]) in
  (is_Some (Remote.databases w !! Task.name self) ->
   forall data fs, exists msg,
     Task.fit ext self data false fs w = (Raise (KeyError msg), checked))
  /\ (Remote.databases w !! Task.name self = None ->
      forall data fs, exists msg,
        Task.append ext self data fs w = (Raise (KeyError msg), checked)).
Proof.
  cbv zeta. split.
  - intros [d Hd] data fs. apply (fit_refuses_existing ext self data fs w d Hd).
  - intros Hd data fs. apply (append_refuses_absent ext self data fs w Hd).
Qed.

Lemma X14_witness :
  (exists msg,
     Task.fit demo_externals ready_trainer (Task.DataFrame demo_rows) false 5
       (demo_world with_db [])
     = (Raise (KeyError msg),
        Remote.set_trace (demo_world with_db []) [Remote.Called (Remote.IsValid "db")]))
  /\ (exists msg,
        Task.append demo_externals ready_trainer demo_rows 5 (demo_world with_other [])
        = (Raise (KeyError msg),
           Remote.set_trace (demo_world with_other []) [Remote.Called (Remote.IsValid "db")])).
Proof.
  split.
  - destruct (X14_task_guards_refuse_at_once demo_externals ready_trainer
                (demo_world with_db [])) as [Hfit _].
    apply (Hfit (ex_intro _ {| Remote.dtype := "Text" |} eq_refl)).
  - destruct (X14_task_guards_refuse_at_once demo_externals ready_trainer
                (demo_world with_other [])) as [_ Happend].
    apply (Happend eq_refl).
Defined.

(** X15.  [append] on a name that exists, not waiting for the training:
    the raw data left under the name is deleted, the cleaned frame is
    uploaded batch by batch, and one call starts the incremental
    training, after the last batch; the set of collections is what it
    was. *)
Theorem X15_append_uploads_then_trains (ext : Task.Externals) (self : Task.Trainer)
    (data df : Remote.Frame) (fs : Z) (w : Remote.World) (d : Remote.DbInfo) :
  Remote.databases w !! Task.name self = Some d ->
  Task.check_dtype_and_clean ext data (Some (Remote.dtype d)) = Ret df ->
  0 < Task.batch_size (Task.insert_params self) ->
  fs < 1 ->
  let name := Task.name self in
  let bs := Remote.batches (length df)
              (Z.to_nat (Task.batch_size (Task.insert_params self))) df in
  exists w',
    Task.append ext self data fs w
    = (Ret (map (fun b => Remote.answers w (Remote.InsertBatch name b true)) bs,
            Remote.answers w (Remote.AppendData name)), w')
    /\ Remote.trace w'
       = Remote.trace w
         ++ [Remote.Called (Remote.IsValid name); Remote.Called (Remote.DeleteRawData name);
             Remote.Called (Remote.IsValid name); Remote.Called (Remote.Describe name);
             Remote.Called (Remote.DeleteRawData name);
             Remote.Called (Remote.IsValid name); Remote.Called (Remote.Describe name);
             Remote.Called (Remote.Describe name)]
         ++ map (fun b => Remote.Called (Remote.InsertBatch name b true)) bs
         ++ [Remote.Called (Remote.AppendData name)]
    /\ Remote.databases w' = Remote.databases w.
Proof.
  intros Hd Hclean Hbs Hfs name bs.
  assert (Hz : (Task.batch_size (Task.insert_params self) =? 0) = false) by (apply Z.eqb_neq; lia).
  assert (Hn : (Task.batch_size (Task.insert_params self) <? 0) = false) by (apply Z.ltb_ge; lia).
  assert (Hf : (1 <=? fs) = false) by (apply Z.leb_gt; lia).
  eexists. unfold Task.append, bind at 1.
  rewrite (is_valid_present self w d Hd). simpl.
  unfold Task.delete_raw_data, Task.db_type, Task.describe, Task.is_valid, Remote._is_valid,
    Remote._describe, Remote._delete_raw_data, Remote._append, Remote._insert_data,
    Remote.check_response, Remote.call, bind, Remote.emit, lift.
  destruct (Task.safe_mode self);
    repeat (cbn -[Remote.batches Remote.insert_batches Z.eqb Z.ltb Z.leb];
            rewrite ?Hd, ?Hclean, ?Hz, ?Hn, ?Hf, ?insert_batches_trace;
            try rewrite bool_decide_true by eauto);
    (split; [reflexivity |]); cbn; rewrite <- ?app_assoc; split; reflexivity.
Qed.

Lemma X15_witness :
  exists w',
    Task.append demo_externals ready_trainer demo_rows 0 (demo_world with_db [])
    = (Ret (["ok"; "ok"], "ok"), w')
    /\ Remote.trace w'
       = [Remote.Called (Remote.IsValid "db"); Remote.Called (Remote.DeleteRawData "db");
          Remote.Called (Remote.IsValid "db"); Remote.Called (Remote.Describe "db");
          Remote.Called (Remote.DeleteRawData "db");
          Remote.Called (Remote.IsValid "db"); Remote.Called (Remote.Describe "db");
          Remote.Called (Remote.Describe "db");
          Remote.Called (Remote.InsertBatch "db" [JNum 1; JNum 2] true);
          Remote.Called (Remote.InsertBatch "db" [JNum 3] true);
          Remote.Called (Remote.AppendData "db")].
Proof.
  destruct (X15_append_uploads_then_trains demo_externals ready_trainer demo_rows demo_rows 0
              (demo_world with_db []) {| Remote.dtype := "Text" |})
    as (w' & Hrun & Htrace & _).
  - reflexivity.
  - reflexivity.
  - reflexivity.
  - reflexivity.
  - exists w'. split; [exact Hrun | exact Htrace].
Defined.
